(** * WayLook: the snapshot scanning pipeline of [server.py]

    A shallow embedding of [fetch_snapshots], [extract_data],
    [send_sse_event] and the [generate] generator of [scan], with the
    properties of the design document proved (or refuted) against it.

    Conventions of the embedding:
    - a Python [str] is a list of characters; a character is a code point
      below 256 (Rocq's [ascii], read as Latin-1).  Text outside Latin-1
      is beyond this model;
    - offsets are [Z], as Python's [int], so that [max(0, start - 30)] keeps
      its meaning; slicing follows Python's rules for negative and
      out-of-range bounds;
    - the library calls ([re], [bs4], [requests], [json]) are modelled by
      the fragment of their behaviour the program relies on; what the
      network and the HTML parser answer is a parameter (a [world]). *)

From Stdlib Require Import Ascii String.
From Stdlib Require Import List NArith ZArith Bool Arith Lia.
From Stdlib Require Import Numbers.DecimalString.
Import ListNotations.

Set Implicit Arguments.

(** ** Python strings *)

Module Text.

Definition text := list ascii.

(** A literal of the source, as a [text]. *)
Definition str (s : string) : text := list_ascii_of_string s.

Definition ord (c : ascii) : N := N_of_ascii c.

(** [str.isspace] on one character, also the class [\s] of [re]:
    TAB..CR, FS..US, SPACE, NEL and NBSP. *)
Definition isspace (c : ascii) : bool :=
  let n := ord c in
  ((9 <=? n) && (n <=? 13) || (28 <=? n) && (n <=? 32)
   || (n =? 133) || (n =? 160))%N.

(** Simple lower-casing of a Latin-1 code point, the folding
    [re.IGNORECASE] compares characters under. *)
Definition lower (c : ascii) : ascii :=
  let n := ord c in
  if ((65 <=? n) && (n <=? 90)
      || (192 <=? n) && (n <=? 222) && negb (n =? 215))%N
  then ascii_of_N (n + 32) else c.

Definition isalnum_ascii (c : ascii) : bool :=
  let n := ord c in
  ((48 <=? n) && (n <=? 57) || (65 <=? n) && (n <=? 90)
   || (97 <=? n) && (n <=? 122))%N.

Definition newline : ascii := ascii_of_N 10.
Definition space : ascii := " "%char.

Definition len (s : text) : Z := Z.of_nat (length s).

(** Python's treatment of one slice bound: a negative bound counts from
    the end, and every bound is clamped to [0 .. len]. *)
Definition clamp_index (n i : Z) : Z :=
  if (i <? 0)%Z then Z.max 0 (i + n) else Z.min i n.

(** [s[a:b]] *)
Definition slice (s : text) (a b : Z) : text :=
  let a' := clamp_index (len s) a in
  let b' := clamp_index (len s) b in
  firstn (Z.to_nat (b' - a')) (skipn (Z.to_nat a') s).

(** [s.replace('\n', ' ')] *)
Definition replace_newline (s : text) : text :=
  map (fun c => if Ascii.eqb c newline then space else c) s.

Fixpoint lstrip (s : text) : text :=
  match s with
  | c :: s' => if isspace c then lstrip s' else s
  | [] => []
  end.

Definition rstrip (s : text) : text := rev (lstrip (rev s)).

(** [s.strip()] *)
Definition strip (s : text) : text := rstrip (lstrip s).

Fixpoint starts_with (p s : text) : bool :=
  match p, s with
  | [], _ => true
  | c :: p', d :: s' => Ascii.eqb c d && starts_with p' s'
  | _ :: _, [] => false
  end.

(** [p in s] *)
Fixpoint contains (p s : text) : bool :=
  starts_with p s ||
  match s with
  | [] => false
  | _ :: s' => contains p s'
  end.

(** [sep.join(parts)] *)
Fixpoint join (sep : text) (parts : list text) : text :=
  match parts with
  | [] => []
  | [p] => p
  | p :: ps => p ++ sep ++ join sep ps
  end.

(** [str(n)] for a non-negative [int]. *)
Definition str_of_nat (n : nat) : text :=
  str (NilEmpty.string_of_uint (Nat.to_uint n)).

Definition text_eqb (a b : text) : bool :=
  if list_eq_dec ascii_dec a b then true else false.

End Text.
Import Text.

(** ** The fragment of [re] the scanner uses *)

Module Re.

(** [re.escape]: a backslash before each of the characters
    [()[]{}?*+-|^$\.&~#] and the ASCII whitespace. *)
Definition special_chars : text :=
  str "()[]{}?*+-|^$\.&~# " ++ map ascii_of_N [9; 10; 13; 11; 12]%N.

Definition is_special (c : ascii) : bool :=
  existsb (Ascii.eqb c) special_chars.

Definition backslash : ascii := "\"%char.

Fixpoint escape (pattern : text) : text :=
  match pattern with
  | [] => []
  | c :: rest =>
      if is_special c then backslash :: c :: escape rest
      else c :: escape rest
  end.

(** A compiled pattern: a sequence of one-character atoms.  [Lit c] is
    the character [c] itself, [AnyChar] is the dot. *)
Inductive atom : Type :=
| Lit (c : ascii)
| AnyChar.

Definition pattern := list atom.

(** The characters with a meaning of their own in a pattern. *)
Definition is_meta (c : ascii) : bool :=
  existsb (Ascii.eqb c) (str ".^$*+?{}[]()|\").

(** The parser of [re.compile], on the patterns made of plain
    characters, dots and escaped punctuation.  A backslash before a
    character that is not an ASCII letter or digit stands for that
    character; any other construct (repetition, classes, groups,
    anchors, class escapes) is outside the fragment: [None]. *)
Fixpoint parse (p : text) : option pattern :=
  match p with
  | [] => Some []
  | c :: rest =>
      if Ascii.eqb c backslash then
        match rest with
        | d :: rest' =>
            if isalnum_ascii d then None
            else option_map (cons (Lit d)) (parse rest')
        | [] => None
        end
      else if Ascii.eqb c "."%char then option_map (cons AnyChar) (parse rest)
      else if is_meta c then None
      else option_map (cons (Lit c)) (parse rest)
  end.

(** One atom against one character, under [re.IGNORECASE]; the dot
    does not match a newline. *)
Definition atom_matches (a : atom) (d : ascii) : bool :=
  match a with
  | Lit c => Ascii.eqb (lower c) (lower d)
  | AnyChar => negb (Ascii.eqb d newline)
  end.

(** Does the pattern match at the head of [s]? *)
Fixpoint match_here (p : pattern) (s : text) : bool :=
  match p, s with
  | [], _ => true
  | a :: p', d :: s' => atom_matches a d && match_here p' s'
  | _ :: _, [] => false
  end.

(** [pattern.finditer(s)]: the matches from left to right, each search
    resuming where the previous match ended (one further after an
    empty match).  [pos] is the offset of [s] in the whole string and
    [skip] the number of characters still covered by the last match. *)
Fixpoint finditer_from (p : pattern) (pos : Z) (skip : nat) (s : text)
  : list (Z * Z) :=
  match s with
  | [] =>
      match skip with
      | O => if match_here p [] then [(pos, pos)] else []
      | S _ => []
      end
  | _ :: s' =>
      match skip with
      | S k => finditer_from p (pos + 1) k s'
      | O =>
          if match_here p s
          then (pos, pos + Z.of_nat (length p))%Z
                 :: finditer_from p (pos + 1) (pred (length p)) s'
          else finditer_from p (pos + 1) 0 s'
      end
  end.

Definition finditer (p : pattern) (s : text) : list (Z * Z) :=
  finditer_from p 0 0 s.

(** [re.sub(r'\s+', ' ', s)]: every maximal run of whitespace becomes
    one space.  [in_run] tells that the previous character was
    whitespace. *)
Fixpoint sub_ws_from (in_run : bool) (s : text) : text :=
  match s with
  | [] => []
  | c :: s' =>
      if isspace c
      then (if in_run then sub_ws_from true s'
            else space :: sub_ws_from true s')
      else c :: sub_ws_from false s'
  end.

Definition sub_ws (s : text) : text := sub_ws_from false s.

End Re.

(** ** Exceptions *)

Module Exn.

(** A Python exception, by its message [str(e)]. *)
Inductive exn : Type := Exception (msg : text).

Definition exn_str (e : exn) : text := match e with Exception m => m end.

(** The outcome of a call that may raise. *)
Inductive result (A : Type) : Type :=
| Ok (a : A)
| Raise (e : exn).
Arguments Ok {A} a.
Arguments Raise {A} e.

Definition bind {A B} (r : result A) (f : A -> result B) : result B :=
  match r with
  | Ok a => f a
  | Raise e => Raise e
  end.

(** [for x in xs: acc = body(acc, x)], stopping at the first raise. *)
Fixpoint for_each {X S} (xs : list X) (body : S -> X -> result S) (acc : S)
  : result S :=
  match xs with
  | [] => Ok acc
  | x :: xs' => bind (body acc x) (for_each xs' body)
  end.

End Exn.
Import Exn.

Declare Scope result_scope.
Delimit Scope result_scope with result.
Notation "x <- r ;; k" := (Exn.bind r (fun x => k))
  (at level 61, r at next level, right associativity) : result_scope.

(** ** The document tree of [bs4] *)

Module Bs4.

(** The classes of string nodes.  The parser gives the text of a
    [script], [style] or [template] element its own class. *)
Inductive string_class : Type :=
| NavigableString | CData | Comment | Script | Stylesheet
| TemplateString | Doctype | OtherString.

(** An element node [Tag] with its attribute dictionary (the first
    binding of a key is its value) and its children, or a string node. *)
#[warnings="-register-all"]
Inductive node : Type :=
| Tag (name : text) (attrs : list (text * text)) (contents : list node)
| Str (cls : string_class) (s : text).

(** A parsed document: the children of the root object. *)
Definition soup := list node.

(** [tag.get(key)] *)
Fixpoint get (attrs : list (text * text)) (key : text) : option text :=
  match attrs with
  | [] => None
  | (k, v) :: rest => if text_eqb k key then Some v else get rest key
  end.

(** [.descendants]: every node below [n], in document order. *)
Fixpoint descendants (n : node) : list node :=
  match n with
  | Tag _ _ kids => flat_map (fun k => k :: descendants k) kids
  | Str _ _ => []
  end.

Definition soup_descendants (d : soup) : list node :=
  flat_map (fun k => k :: descendants k) d.

(** The tree after [decompose()] of every element [doomed] holds of: an
    element goes with everything below it. *)
Fixpoint prune (doomed : text -> list (text * text) -> bool) (n : node)
  : list node :=
  match n with
  | Tag name attrs kids =>
      if doomed name attrs then []
      else [Tag name attrs (flat_map (prune doomed) kids)]
  | Str c s => [Str c s]
  end.

Definition decompose_all (doomed : text -> list (text * text) -> bool)
  (d : soup) : soup :=
  flat_map (prune doomed) d.

Definition is_tag_named (name : text) (n : node) : bool :=
  match n with
  | Tag nm _ _ => text_eqb nm name
  | Str _ _ => false
  end.

(** [soup.find_all(name)] and [soup.find(name)] *)
Definition find_all (name : text) (d : soup) : list node :=
  filter (is_tag_named name) (soup_descendants d).

Definition find (name : text) (d : soup) : option node :=
  List.find (is_tag_named name) (soup_descendants d).

(** [.string]: the single string below a tag, through single-child
    tags; [None] when some tag on the way has not exactly one child. *)
Fixpoint string_of (n : node) : option text :=
  match n with
  | Str _ s => Some s
  | Tag _ _ [child] => string_of child
  | Tag _ _ _ => None
  end.

(** The strings [get_text] of an ordinary tag collects: plain text and
    CDATA, not comments nor the text the parser filed under [script],
    [style] or [template]. *)
Definition interesting (c : string_class) : bool :=
  match c with
  | NavigableString | CData => true
  | _ => false
  end.

(** [tag.get_text(separator=sep, strip=True)] *)
Definition get_text_strip (sep : text) (n : node) : text :=
  join sep
    (flat_map (fun d =>
                 match d with
                 | Str c s =>
                     if interesting c
                     then (match strip s with [] => [] | t => [t] end)
                     else []
                 | Tag _ _ _ => []
                 end)
              (descendants n)).

(** [soup.find_all(string=lambda text: isinstance(text, Comment))] *)
Definition find_all_comments (d : soup) : list text :=
  flat_map (fun n => match n with
                     | Str Comment s => [s]
                     | _ => []
                     end)
           (soup_descendants d).

End Bs4.

(** ** JSON values, as [response.json()] returns them *)

Module Json.

(** A number is kept as it is written; an object by its bindings
    (a [dict]: the keys are distinct). *)
#[warnings="-register-all"]
Inductive value : Type :=
| JNull
| JBool (b : bool)
| JNum (lexeme : text)
| JStr (s : text)
| JList (items : list value)
| JObj (bindings : list (text * value)).

(** [len(v)], a [TypeError] on a value without a length. *)
Definition py_len (v : value) : result nat :=
  match v with
  | JList items => Ok (length items)
  | JStr s => Ok (length s)
  | JObj bindings => Ok (length bindings)
  | _ => Raise (Exception (str "TypeError: object has no len()"))
  end.

(** [v[i]] for a non-negative literal index [i]: an item of a list, a
    character of a string, a [KeyError] on an object (its keys are
    strings), a [TypeError] elsewhere. *)
Definition py_item (v : value) (i : nat) : result value :=
  match v with
  | JList items =>
      match nth_error items i with
      | Some x => Ok x
      | None => Raise (Exception (str "IndexError: list index out of range"))
      end
  | JStr s =>
      match nth_error s i with
      | Some c => Ok (JStr [c])
      | None => Raise (Exception (str "IndexError: string index out of range"))
      end
  | JObj _ => Raise (Exception (str "KeyError"))
  | _ => Raise (Exception (str "TypeError: object is not subscriptable"))
  end.

End Json.

(** ** Generators: yielded events, the local [found_any], exceptions *)

Module Gen.

Section WithEvent.
Variable E : Type.

(** A piece of a generator body: from the current value of
    [found_any] to its new value, the events yielded on the way, and
    a result or the exception that stopped it. *)
Definition gen (A : Type) : Type := bool -> bool * list E * result A.

Definition ret {A} (a : A) : gen A := fun s => (s, [], Ok a).

Definition bind {A B} (m : gen A) (f : A -> gen B) : gen B :=
  fun s =>
    match m s with
    | (s1, out1, Ok a) =>
        let '(s2, out2, r) := f a s1 in (s2, out1 ++ out2, r)
    | (s1, out1, Raise e) => (s1, out1, Raise e)
    end.

Definition yield (ev : E) : gen unit := fun s => (s, [ev], Ok tt).

Definition set_found_any (b : bool) : gen unit := fun _ => (b, [], Ok tt).

Definition get_found_any : gen bool := fun s => (s, [], Ok s).

(** A call that may raise. *)
Definition call {A} (r : result A) : gen A := fun s => (s, [], r).

(** [try: body  except Exception as e: handler(e)] *)
Definition try_except {A} (body : gen A) (handler : exn -> gen A) : gen A :=
  fun s =>
    match body s with
    | (s1, out1, Raise e) =>
        let '(s2, out2, r) := handler e s1 in (s2, out1 ++ out2, r)
    | done => done
    end.

(** [for x in xs: body(x)] *)
Fixpoint for_each {X} (xs : list X) (body : X -> gen unit) : gen unit :=
  match xs with
  | [] => ret tt
  | x :: xs' => bind (body x) (fun _ => for_each xs' body)
  end.

(** What the consumer of the generator receives. *)
Definition events (m : gen unit) : list E :=
  let '(_, out, _) := m false in out.

End WithEvent.

Arguments ret {E A} a.
Arguments yield {E} ev.
Arguments set_found_any {E} b.
Arguments get_found_any {E}.
Arguments call {E A} r.

End Gen.

Declare Scope gen_scope.
Delimit Scope gen_scope with gen.
Notation "x <- m ;; k" := (Gen.bind m (fun x => k))
  (at level 61, m at next level, right associativity) : gen_scope.
Notation "m ;; k" := (Gen.bind m (fun _ => k))
  (at level 61, right associativity) : gen_scope.

(** ** [server.py] *)

Module Server.

Import Bs4 Json.

(** What one HTTP request comes to: [requests.get] raises, or returns a
    response with a status code and a body. *)
Inductive http_outcome (Body : Type) : Type :=
| HttpRaise (e : exn)
| HttpResponse (status_code : Z) (body : Body).
Arguments HttpRaise {Body} e.
Arguments HttpResponse {Body} status_code body.

(** Everything the program asks of its surroundings. *)
Record world : Type := {
  (** [requests.get(CDX_API, params=...)]; the body is
      [response.json()], which raises on a malformed payload *)
  cdx_get : list (text * text) -> http_outcome (result value);
  (** the [n]-th [requests.get(archive_url, ...)] of a scan; the body
      is [response.text] *)
  archive_get : nat -> text -> http_outcome text;
  (** [BeautifulSoup(html, 'lxml')] *)
  BeautifulSoup : text -> result soup;
  (** how an f-string prints a JSON value; a string prints as itself *)
  format : value -> text;
  (** [int(s)], [None] for a [ValueError] *)
  int_of_str : text -> option Z
}.

Definition CDX_API : text := str "https://web.archive.org/cdx/search/cdx".

Definition str_of_int (z : Z) : text :=
  str (NilEmpty.string_of_int (Z.to_int z)).


Record snapshot : Type := {
  snap_timestamp : value;
  snap_original : value
}.

(** The query of [fetch_snapshots]. *)
Definition cdx_params (domain : text) (year : option text) (limit : Z)
  : list (text * text) :=
  let params :=
    [ (str "url", domain); (str "output", str "json");
      (str "fl", str "timestamp,original");
      (str "filter", str "statuscode:200");
      (str "limit", str_of_int limit) ] in
  match year with
  | Some (c :: y) =>
      params ++ [ (str "from", (c :: y) ++ str "0101");
                  (str "to", (c :: y) ++ str "1231") ]
  | _ => params
  end.

(** The [try] block of [fetch_snapshots]. *)
Definition fetch_snapshots_try (w : world) (params : list (text * text))
  : result (list snapshot) :=
  match cdx_get w params with
  | HttpRaise e => Raise e
  | HttpResponse status_code body =>
      if negb (status_code =? 200)%Z then Ok []
      else
        (data <- body ;;
         match data with
         | JList rows =>
             if length rows <=? 1 then Ok []
             else
               (* Skip header row and map to snapshot objects *)
               Exn.for_each (skipn 1 rows)
                 (fun snapshots row =>
                    n <- py_len row ;;
                    if 2 <=? n then
                      t <- py_item row 0 ;;
                      o <- py_item row 1 ;;
                      Ok (snapshots ++ [ {| snap_timestamp := t;
                                            snap_original := o |} ])
                    else Ok snapshots)
                 []
         | _ => Ok []
         end)%result
  end.

Definition fetch_snapshots (w : world) (domain : text) (year : option text)
  (limit : Z) : list snapshot :=
  match fetch_snapshots_try w (cdx_params domain year limit) with
  | Ok snapshots => snapshots
  | Raise _ => []
  end.

Inductive match_type : Type := TEXT | JS | COMMENT.

Record Match : Type := {
  timestamp : value;
  archiveUrl : text;
  matchType : match_type;
  snippet : text
}.

(** [re.compile(p, re.IGNORECASE)]; [re.error] stands for every
    pattern outside the modelled fragment. *)
Definition re_compile (p : text) : result Re.pattern :=
  match Re.parse p with
  | Some c => Ok c
  | None => Raise (Exception (str "re.error"))
  end.

Definition is_wayback_toolbar (name : text) (attrs : list (text * text))
  : bool :=
  match get attrs (str "id") with
  | Some i => text_eqb i (str "wm-ipp-base") || text_eqb i (str "wm-ipp")
              || text_eqb i (str "donato")
  | None => false
  end.

Definition is_archive_script (name : text) (attrs : list (text * text))
  : bool :=
  text_eqb name (str "script") &&
  match get attrs (str "src") with
  | Some (c :: src) => contains (str "archive.org") (c :: src)
  | _ => false
  end.

Section Extract.
(** [ts] is the parameter [timestamp] of the source. *)
Variables (keyword : text) (ts : value) (archive_url : text).

(** The window of 30 characters around a match. *)
Definition window (content : text) (m : Z * Z) : text :=
  let start := Z.max 0 (fst m - 30) in
  let end_ := Z.min (len content) (snd m + 30) in
  slice content start end_.

Definition found (ty : match_type) (snip : text) : Match :=
  {| timestamp := ts; archiveUrl := archive_url;
     matchType := ty; snippet := snip |}.

(** 2. SEARCH VISIBLE TEXT *)
Definition search_visible_text (doc : soup) (escaped_keyword : text)
  (matches : list Match) : result (list Match) :=
  match find (str "body") doc with
  | Some body =>
      let text_content := get_text_strip (str " ") body in
      let text_content := Re.sub_ws text_content in
      (pattern <- re_compile escaped_keyword ;;
       Ok (fold_left
             (fun matches m =>
                let snippet :=
                  str "..." ++ replace_newline (window text_content m)
                      ++ str "..." in
                matches ++ [found TEXT snippet])
             (Re.finditer pattern text_content) matches))%result
  | None => Ok matches
  end.

(** 3. SEARCH JAVASCRIPT: the loop over the script elements *)
Definition search_scripts (scripts : list node) (escaped_keyword : text)
  (matches : list Match) : result (list Match) :=
  Exn.for_each scripts
    (fun matches script =>
       match string_of script with
       | Some (c :: s) =>
           let script_content := c :: s in
           (pattern <- re_compile escaped_keyword ;;
            Ok (fold_left
                  (fun matches m =>
                     let snippet :=
                       str "..."
                           ++ strip (replace_newline
                                       (window script_content m))
                           ++ str "..." in
                     matches ++ [found JS snippet])
                  (Re.finditer pattern script_content) matches))%result
       | _ => Ok matches
       end)
    matches.

Definition search_javascript (doc : soup) (escaped_keyword : text)
  (matches : list Match) : result (list Match) :=
  search_scripts (find_all (str "script") doc) escaped_keyword matches.

(** 4. SEARCH COMMENTS *)
Definition search_comments (doc : soup) (escaped_keyword : text)
  (matches : list Match) : result (list Match) :=
  Exn.for_each (find_all_comments doc)
    (fun matches comment_text =>
       if contains (str "FILE ARCHIVED ON") comment_text then Ok matches
       else
         (pattern <- re_compile escaped_keyword ;;
          Ok (fold_left
                (fun matches m =>
                   let snippet :=
                     str "..." ++ strip (window comment_text m)
                         ++ str "..." in
                   matches ++ [found COMMENT snippet])
                (Re.finditer pattern comment_text) matches))%result)
    matches.

(** [extract_data], on the parsed document. *)
Definition extract_from_soup (doc : soup) : result (list Match) :=
  let matches := [] in
  (* 1. CLEANUP *)
  let doc := decompose_all is_wayback_toolbar doc in
  let doc := decompose_all is_archive_script doc in
  let escaped_keyword := Re.escape keyword in
  (matches <- search_visible_text doc escaped_keyword matches ;;
   matches <- search_javascript doc escaped_keyword matches ;;
   matches <- search_comments doc escaped_keyword matches ;;
   Ok matches)%result.

End Extract.

Definition extract_data (w : world) (html keyword : text) (ts : value)
  (archive_url : text) : result (list Match) :=
  (doc <- BeautifulSoup w html ;;
   extract_from_soup keyword ts archive_url doc)%result.

(** The payload of one server-sent event. *)
Inductive event : Type :=
| Progress (message : text) (counters : option (nat * nat))
| MatchEvent (m : Match)
| Complete (message : text)
| Error (error : text).

(** [send_sse_event], over the serialisation [dumps] of a payload. *)
Definition send_sse_event (dumps : event -> text) (data : event) : text :=
  str "data: " ++ dumps data ++ [newline; newline].

(** [enumerate(xs)] *)
Definition enumerate {X} (xs : list X) : list (nat * X) :=
  combine (seq 0 (length xs)) xs.

Section Generate.
Variables (w : world) (domain : text) (year : option text)
          (keyword : text) (limit : Z).

Local Open Scope gen_scope.

Definition archive_url_of (snap : snapshot) : text :=
  str "https://web.archive.org/web/" ++ format w (snap_timestamp snap)
      ++ str "/" ++ format w (snap_original snap).

(** The body of [for i, snapshot in enumerate(snapshots)]. *)
Definition scan_snapshot (total : nat) (item : nat * snapshot)
  : Gen.gen event unit :=
  let '(i, snap) := item in
  let ts := snap_timestamp snap in
  let archive_url := archive_url_of snap in
  Gen.yield (Progress (str "Scanning snapshot: " ++ format w ts ++ str "...")
                      (Some (i + 1, total))) ;;
  Gen.try_except
    ((* time.sleep(random.uniform(0.5, 1.0)) *)
     match archive_get w i archive_url with
     | HttpRaise e => Gen.call (Raise e)
     | HttpResponse status_code html =>
         if (status_code =? 200)%Z then
           matches <- Gen.call (extract_data w html keyword ts archive_url) ;;
           match matches with
           | _ :: _ =>
               Gen.set_found_any true ;;
               Gen.for_each matches (fun m => Gen.yield (MatchEvent m))
           | [] => Gen.ret tt
           end
         else Gen.ret tt
     end)
    (fun _ => Gen.ret tt (* continue *)).

(** The [try] block of [generate]. *)
Definition generate_body : Gen.gen event unit :=
  Gen.yield (Progress (str "Contacting Wayback Machine for: " ++ domain
                           ++ str "...") None) ;;
  let snapshots := fetch_snapshots w domain year limit in
  match snapshots with
  | [] => Gen.yield (Complete (str "No snapshots found for this criteria."))
  | _ :: _ =>
      Gen.yield (Progress (str "Analyzing " ++ str_of_nat (length snapshots)
                               ++ str " snapshots for '" ++ keyword
                               ++ str "'...")
                          (Some (0, length snapshots))) ;;
      Gen.set_found_any false ;;
      Gen.for_each (enumerate snapshots)
                   (scan_snapshot (length snapshots)) ;;
      found_any <- Gen.get_found_any ;;
      if found_any
      then Gen.yield (Complete (str "Scan complete."))
      else Gen.yield (Complete (str "Scan finished. No matches found."))
  end.

Definition generate : list event :=
  Gen.events
    (Gen.try_except generate_body
                    (fun e => Gen.yield (Error (exn_str e)))).

End Generate.

(** What [scan] answers: a rejection with its status, or the stream. *)
Inductive response : Type :=
| Rejected (status : Z) (error : text)
| Stream (events : list event).

Definition scan (w : world) (domain year keyword limit : option text)
  : response :=
  let limit := match limit with Some l => l | None => str "100" end in
  match domain, keyword with
  | Some (d :: domain'), Some (k :: keyword') =>
      let limit := match int_of_str w limit with
                   | Some n => n
                   | None => 100%Z
                   end in
      Stream (generate w (d :: domain') year (k :: keyword') limit)
  | _, _ =>
      Rejected 400 (str "Missing required parameters: domain and keyword")
  end.

End Server.

(** ** The zones of a document, declaratively

    What the three search loops of [extract_data] compute, written as
    functions of the haystacks; [extract_zones] below relates them to
    the code. *)

Module Zones.

Import Server Bs4.

(** The document after step 1, the cleanup. *)
Definition cleaned (doc : soup) : soup :=
  decompose_all is_archive_script (decompose_all is_wayback_toolbar doc).

Definition text_haystacks (doc : soup) : list text :=
  match find (str "body") doc with
  | Some body => [Re.sub_ws (get_text_strip (str " ") body)]
  | None => []
  end.

Definition script_haystacks (scripts : list node) : list text :=
  flat_map (fun script => match string_of script with
                          | Some (c :: s) => [c :: s]
                          | _ => []
                          end) scripts.

Definition comment_haystacks (doc : soup) : list text :=
  filter (fun c => negb (contains (str "FILE ARCHIVED ON") c))
         (find_all_comments doc).

(** The occurrences of a keyword taken literally. *)
Definition occurrences (keyword haystack : text) : list (Z * Z) :=
  Re.finditer (map Re.Lit keyword) haystack.

(** What each zone does to the window around a match. *)
Definition normalise (ty : match_type) (w : text) : text :=
  match ty with
  | TEXT => replace_newline w
  | JS => strip (replace_newline w)
  | COMMENT => strip w
  end.

Definition snippet_of (ty : match_type) (haystack : text) (m : Z * Z) : text :=
  str "..." ++ normalise ty (window haystack m) ++ str "...".

Definition zone_matches (keyword : text) (ts : Json.value) (url : text)
  (ty : match_type) (haystack : text) : list Match :=
  map (fun m => found ts url ty (snippet_of ty haystack m))
      (occurrences keyword haystack).

Definition scan_zone (keyword : text) (ts : Json.value) (url : text)
  (ty : match_type) (haystacks : list text) : list Match :=
  flat_map (zone_matches keyword ts url ty) haystacks.

(** The haystacks of a document with their zones, in the order
    [extract_data] searches them. *)
Definition haystacks (doc : soup) : list (match_type * text) :=
  let d := cleaned doc in
  map (pair TEXT) (text_haystacks d)
  ++ map (pair JS) (script_haystacks (find_all (str "script") d))
  ++ map (pair COMMENT) (comment_haystacks d).

(** The keyword neither starts nor ends with whitespace. *)
Definition clean_edges (keyword : text) : bool :=
  match keyword with
  | c :: _ => negb (isspace c)
  | [] => false
  end &&
  match rev keyword with
  | c :: _ => negb (isspace c)
  | [] => false
  end.

Definition no_newline (s : text) : bool :=
  forallb (fun c => negb (Ascii.eqb c newline)) s.

(** The keywords a zone's normalisation cannot damage. *)
Definition survives (ty : match_type) (keyword : text) : bool :=
  match ty with
  | TEXT => true
  | JS => clean_edges keyword && no_newline keyword
  | COMMENT => clean_edges keyword
  end.

(** The snippet as the design document words it: the window with its
    whitespace runs collapsed, stripped, between ellipses. *)
Definition documented_snippet (haystack : text) (m : Z * Z) : text :=
  str "..." ++ strip (Re.sub_ws (window haystack m)) ++ str "...".

(** Offsets in increasing order, no two ranges overlapping: each range
    starts at or after [lo] and after the end of the one before. *)
Fixpoint ordered (lo : Z) (l : list (Z * Z)) : Prop :=
  match l with
  | [] => True
  | (a, b) :: l' => (lo <= a /\ a <= b /\ ordered b l')%Z
  end.

(** Two texts equal up to letter case. *)
Definition same_ignoring_case (a b : text) : Prop :=
  map lower a = map lower b.

(** [needle] occurs in [s] as it is. *)
Definition is_substring (needle s : text) : Prop :=
  exists pre post, s = pre ++ needle ++ post.

(** Every whitespace run of [s] is one space character. *)
Fixpoint collapsed (s : text) : Prop :=
  match s with
  | [] => True
  | c :: s' =>
      (isspace c = true -> c = space /\
         match s' with d :: _ => isspace d = false | [] => True end)
      /\ collapsed s'
  end.

End Zones.

(** ** The event stream, declaratively *)

Module Stream.

Import Server.

Definition is_progress (e : event) : bool :=
  match e with Progress _ _ => true | _ => false end.

Definition is_match (e : event) : bool :=
  match e with MatchEvent _ => true | _ => false end.

Definition is_complete (e : event) : bool :=
  match e with Complete _ => true | _ => false end.

(** [complete] and [error] end a stream. *)
Definition is_terminal (e : event) : bool :=
  match e with Complete _ | Error _ => true | _ => false end.

(** A discovery that is not a list of a header and at least one data
    row: the request raised, the status is not 200, the payload is
    not JSON, or it is not a list of two rows or more. *)
Definition discovery_failed (o : http_outcome (result Json.value)) : bool :=
  match o with
  | HttpRaise _ => true
  | HttpResponse status_code body =>
      negb (status_code =? 200)%Z ||
      match body with
      | Raise _ => true
      | Ok (Json.JList rows) => length rows <=? 1
      | Ok _ => true
      end
  end.

Section Capture.
Variables (w : world) (keyword : text).

(** The fetch of a capture failed: the request raised, the status is
    not 200, or processing the page raised. *)
Definition capture_failed (item : nat * snapshot) : bool :=
  let '(i, snap) := item in
  match archive_get w i (archive_url_of w snap) with
  | HttpRaise _ => true
  | HttpResponse status_code html =>
      negb (status_code =? 200)%Z ||
      match extract_data w html keyword (snap_timestamp snap)
                         (archive_url_of w snap) with
      | Raise _ => true
      | Ok _ => false
      end
  end.

(** The matches of one capture: those of its page when it was
    fetched and scanned, none otherwise. *)
Definition capture_matches (item : nat * snapshot) : list Match :=
  let '(i, snap) := item in
  match archive_get w i (archive_url_of w snap) with
  | HttpRaise _ => []
  | HttpResponse status_code html =>
      if (status_code =? 200)%Z then
        match extract_data w html keyword (snap_timestamp snap)
                           (archive_url_of w snap) with
        | Ok matches => matches
        | Raise _ => []
        end
      else []
  end.

Definition capture_progress (total : nat) (item : nat * snapshot) : event :=
  Progress (str "Scanning snapshot: "
                ++ format w (snap_timestamp (snd item)) ++ str "...")
           (Some (fst item + 1, total)).

(** The events of one capture: its progress event, then its matches. *)
Definition capture_events (total : nat) (item : nat * snapshot)
  : list event :=
  capture_progress total item :: map MatchEvent (capture_matches item).

Definition has_matches (item : nat * snapshot) : bool :=
  match capture_matches item with
  | [] => false
  | _ :: _ => true
  end.

End Capture.

Definition contacting (domain : text) : event :=
  Progress (str "Contacting Wayback Machine for: " ++ domain ++ str "...")
           None.

Definition analyzing (total : nat) (keyword : text) : event :=
  Progress (str "Analyzing " ++ str_of_nat total ++ str " snapshots for '"
                ++ keyword ++ str "'...")
           (Some (0, total)).

End Stream.

(** ** Sample inputs *)

Module Samples.

Import Server Bs4 Json.
Local Open Scope string_scope.

Definition text_node (s : string) : node := Str NavigableString (str s).
Definition element (name : string) (kids : list node) : node :=
  Tag (str name) [] kids.
Definition script_node (src : option string) (parts : list string) : node :=
  Tag (str "script")
      (match src with Some u => [(str "src", str u)] | None => [] end)
      (map (fun s => Str Script (str s)) parts).

(** A page with a toolbar of the archive, visible text, scripts (one
    inline, one of the archive, one in two string nodes) and comments. *)
Definition page : soup :=
  [ element "html"
      [ element "head" [ element "title" [ text_node "login title" ] ];
        element "body"
          [ Tag (str "div") [(str "id", str "wm-ipp")]
                [ text_node "login toolbar" ];
            element "p" [ text_node "  Please   login here " ];
            script_node None [ "var  login = 1;" ];
            script_node (Some "https://web.archive.org/x.js") [ "login" ];
            script_node None [ "lo"; "gin" ];
            Str Comment (str " LOGIN comment ");
            Str Comment (str " FILE ARCHIVED ON login ") ] ] ].

(** A page whose only content is one inline script. *)
Definition script_page (content : string) : soup :=
  [ element "html" [ element "body" [ script_node None [ content ] ] ] ].

(** A page whose only content is one paragraph. *)
Definition text_page (content : string) : soup :=
  [ element "html" [ element "body" [ element "p" [ text_node content ] ] ] ].

Definition cdx_rows (rows : list (string * string)) : value :=
  JList (JList [JStr (str "timestamp"); JStr (str "original")]
         :: map (fun r => JList [JStr (str (fst r)); JStr (str (snd r))])
                rows).

Definition print (v : value) : text :=
  match v with
  | JStr s => s
  | _ => str "?"
  end.

(** A world: the index answers [cdx], every capture answers [capture]
    and parses to [doc]. *)
Definition world_of (cdx : http_outcome (result value))
  (capture : http_outcome text) (doc : result soup) : world :=
  {| cdx_get := fun _ => cdx;
     archive_get := fun _ _ => capture;
     BeautifulSoup := fun _ => doc;
     format := print;
     int_of_str := fun _ => Some 100%Z |}.

Definition one_capture : http_outcome (result value) :=
  HttpResponse 200 (Ok (cdx_rows [("20200101000000", "example.com")])).

Definition two_captures : http_outcome (result value) :=
  HttpResponse 200
    (Ok (cdx_rows [("20200101000000", "example.com");
                   ("20210101000000", "example.com")])).

(** One capture, fetched and parsed to [doc]. *)
Definition serving (doc : soup) : world :=
  world_of one_capture (HttpResponse 200 (str "<html>")) (Ok doc).

Definition timed_out : http_outcome text :=
  HttpRaise (Exception (str "ReadTimeout")).

End Samples.

(** ** Discovery rows, declaratively *)

Module Discovery.

Import Server Json.

(** The rows on which the loop of [fetch_snapshots] raises: a value
    without a length, or an object with two bindings or more (its keys
    are strings, [row[0]] is a [KeyError]). *)
Definition row_raises (row : value) : bool :=
  match row with
  | JNull | JBool _ | JNum _ => true
  | JObj bindings => 2 <=? length bindings
  | JStr _ | JList _ => false
  end.

(** The snapshot a row gives when the loop does not raise on it: its
    first two items, or nothing from a row shorter than two. *)
Definition row_snapshots (row : value) : list snapshot :=
  match row with
  | JList (t :: o :: _) => [ {| snap_timestamp := t; snap_original := o |} ]
  | JStr (c :: d :: _) =>
      [ {| snap_timestamp := JStr [c]; snap_original := JStr [d] |} ]
  | _ => []
  end.

End Discovery.

(** ** Reading the stream back *)

Module Sse.

(** The blocks of an event stream: the text before each blank line (two
    newlines in a row); what follows the last blank line is dropped.
    [acc] holds the current block, reversed. *)
Fixpoint split_blocks (acc : text) (s : text) : list text :=
  match s with
  | [] => []
  | c :: rest =>
      match rest with
      | d :: rest' =>
          if Ascii.eqb c newline && Ascii.eqb d newline
          then rev acc :: split_blocks [] rest'
          else split_blocks (c :: acc) rest
      | [] => []
      end
  end.

(** [s] without the prefix [p], when it starts with it. *)
Fixpoint drop_prefix (p s : text) : option text :=
  match p, s with
  | [], _ => Some s
  | c :: p', d :: s' => if Ascii.eqb c d then drop_prefix p' s' else None
  | _ :: _, [] => None
  end.

(** The payloads of the [data: ] blocks of a stream. *)
Definition payloads (stream : text) : list (option text) :=
  map (drop_prefix (str "data: ")) (split_blocks [] stream).

End Sse.

(** ** Views of a document and of a stream *)

Module Views.

Import Server Bs4.

(** No element of the list is one the cleanup removes. *)
Definition injected (n : node) : bool :=
  match n with
  | Tag name attrs _ =>
      is_wayback_toolbar name attrs || is_archive_script name attrs
  | Str _ _ => false
  end.

(** A string node [get_text] does not collect. *)
Definition hidden (n : node) : bool :=
  match n with
  | Str c _ => negb (interesting c)
  | Tag _ _ _ => true
  end.

(** The counters an event carries. *)
Definition event_counters (e : event) : list (nat * nat) :=
  match e with
  | Progress _ (Some c) => [c]
  | _ => []
  end.

(** The match an event carries. *)
Definition event_match (e : event) : list Match :=
  match e with
  | MatchEvent m => [m]
  | _ => []
  end.

End Views.

(** ** Further sample inputs *)

Module MoreSamples.

Import Server Json.
Local Open Scope string_scope.

Definition header_row : value :=
  JList [JStr (str "timestamp"); JStr (str "original")].

(** An index answer with a row of three columns, a row of one, and a
    row of two. *)
Definition mixed_rows : list value :=
  [ JList [JStr (str "2020"); JStr (str "a.com"); JStr (str "text/html")];
    JList [JStr (str "2021")];
    JList [JStr (str "2022"); JStr (str "b.com")] ].

(** An index answer with a good row and a [null]. *)
Definition broken_rows : list value :=
  [ JList [JStr (str "2020"); JStr (str "a.com")]; JNull ].

Definition index_answering (rows : list value) : world :=
  Samples.world_of (HttpResponse 200 (Ok (JList (header_row :: rows))))
                   Samples.timed_out (Ok Samples.page).

(** [int] on the limits [100] and [abc]. *)
Definition parsing_limits : world :=
  {| cdx_get := fun _ => Samples.one_capture;
     archive_get := fun _ _ => Samples.timed_out;
     BeautifulSoup := fun _ => Ok Samples.page;
     format := Samples.print;
     int_of_str := fun s => if text_eqb s (str "100") then Some 100%Z
                            else None |}.

(** A page whose only comment is the footer of the archive, and whose
    body holds a script and nothing else. *)
Definition footer_page : Bs4.soup :=
  [ Samples.element "html"
      [ Samples.element "body"
          [ Samples.script_node None [ "var archived = 1;" ];
            Bs4.Str Bs4.Comment (str " FILE ARCHIVED ON 2020 ") ] ] ].

End MoreSamples.

(** * Facts *)

(** ** Characters *)

Ltac each_char c :=
  destruct c as [[] [] [] [] [] [] [] []]; vm_compute; intuition congruence.

Lemma special_not_alnum (c : ascii) :
  Re.is_special c = true -> isalnum_ascii c = false.
Proof. each_char c. Qed.

Lemma plain_not_meta (c : ascii) :
  Re.is_special c = false ->
  Ascii.eqb c Re.backslash = false /\ Ascii.eqb c "."%char = false
  /\ Re.is_meta c = false.
Proof. each_char c. Qed.

Lemma lower_space (c d : ascii) :
  lower c = lower d -> isspace d = true -> isspace c = true.
Proof.
  intros H Hd.
  assert (Hl : lower d = d) by (revert Hd; each_char d).
  rewrite Hl in H. subst d. revert Hd. each_char c.
Qed.

Lemma lower_newline (c d : ascii) :
  lower c = lower d -> d = newline -> c = newline.
Proof.
  intros H ->. revert H. each_char c.
Qed.

(** ** Escaping and matching *)

Example escape_dot : Re.escape (str "a.b") = str "a\.b".
Proof. reflexivity. Qed.

Example find_ab : Re.finditer [Re.Lit "a"; Re.Lit "b"]%char (str "xABabab")
                  = [(1, 3); (3, 5); (5, 7)]%Z.
Proof. reflexivity. Qed.

Example find_empty : Re.finditer [] (str "ab") = [(0, 0); (1, 1); (2, 2)]%Z.
Proof. reflexivity. Qed.

Example find_aa : Re.finditer [Re.Lit "a"; Re.Lit "a"]%char (str "aaaaa")
                  = [(0, 2); (2, 4)]%Z.
Proof. reflexivity. Qed.

Lemma parse_escape (keyword : text) :
  Re.parse (Re.escape keyword) = Some (map Re.Lit keyword).
Proof.
  induction keyword as [|c kw IH]; [reflexivity|].
  cbn [Re.escape]. destruct (Re.is_special c) eqn:Hs.
  - apply special_not_alnum in Hs.
    cbn [Re.parse]. change (Ascii.eqb Re.backslash Re.backslash) with true.
    cbn iota. rewrite Hs, IH. reflexivity.
  - destruct (plain_not_meta c Hs) as (Hb & Hd & Hm).
    cbn [Re.parse]. rewrite Hb, Hd, Hm, IH. reflexivity.
Qed.

Lemma compile_escape (keyword : text) :
  Server.re_compile (Re.escape keyword) = Ok (map Re.Lit keyword).
Proof. unfold Server.re_compile. now rewrite parse_escape. Qed.

(** A literal pattern matches at the head of [s] exactly when [s] starts
    with the keyword up to letter case. *)
Lemma match_here_literal (keyword s : text) :
  Re.match_here (map Re.Lit keyword) s = true <->
  Zones.same_ignoring_case (firstn (length keyword) s) keyword
  /\ length keyword <= length s.
Proof.
  unfold Zones.same_ignoring_case.
  revert s. induction keyword as [|c kw IH]; intros s; cbn.
  - split; [intros _; split; [reflexivity | lia] | reflexivity].
  - destruct s as [|d s]; cbn.
    + split; [discriminate | intros [_ H]; lia].
    + rewrite andb_true_iff, IH, Ascii.eqb_eq. split.
      * intros (Hc & Hm & Hl). split; [now rewrite Hc, Hm | lia].
      * intros (Hm & Hl). injection Hm as Hc Hm.
        repeat split; [now symmetry | assumption | lia].
Qed.

Lemma match_here_length (p : Re.pattern) (s : text) :
  Re.match_here p s = true -> length p <= length s.
Proof.
  revert s. induction p as [|a p IH]; intros s H; cbn; [lia|].
  destruct s as [|d s]; cbn in *; [discriminate|].
  apply andb_true_iff in H. destruct H as [_ H]. apply IH in H. lia.
Qed.

(** ** [finditer]: order, soundness, completeness *)

Lemma ordered_weaken (lo lo' : Z) (l : list (Z * Z)) :
  (lo' <= lo)%Z -> Zones.ordered lo l -> Zones.ordered lo' l.
Proof.
  destruct l as [|[a b] l]; cbn; [trivial|]. intros H (H1 & H2 & H3).
  repeat split; [lia | assumption | assumption].
Qed.

Lemma finditer_from_ordered (p : Re.pattern) (s : text) :
  forall pos skip,
    Zones.ordered (pos + Z.of_nat skip) (Re.finditer_from p pos skip s).
Proof.
  induction s as [|c s IH]; intros pos skip; cbn [Re.finditer_from].
  - destruct skip; [|exact I].
    destruct (Re.match_here p []); cbn; [lia | exact I].
  - destruct skip as [|k].
    + destruct (Re.match_here p (c :: s)).
      * cbn [Zones.ordered]. repeat split; try lia.
        eapply ordered_weaken; [|apply IH]. lia.
      * eapply ordered_weaken; [|apply IH]. lia.
    + eapply ordered_weaken; [|apply IH]. lia.
Qed.

(** Every reported range is a match of the pattern inside the string. *)
Lemma finditer_from_sound (p : Re.pattern) (s : text) :
  forall pos skip a b,
    In (a, b) (Re.finditer_from p pos skip s) ->
    exists i : nat,
      a = (pos + Z.of_nat i)%Z /\ b = (a + Z.of_nat (length p))%Z
      /\ skip <= i /\ i + length p <= length s
      /\ Re.match_here p (skipn i s) = true.
Proof.
  induction s as [|c s IH]; intros pos skip a b; cbn [Re.finditer_from].
  - destruct skip; [|intros []].
    destruct (Re.match_here p []) eqn:Hm; [|intros []].
    intros [H|[]]. injection H as <- <-. exists 0.
    apply match_here_length in Hm as Hl. cbn in Hl.
    repeat split; cbn; try lia. assumption.
  - assert (Hrest : forall pos' skip',
               In (a, b) (Re.finditer_from p pos' skip' s) ->
               pos' = (pos + 1)%Z -> skip' >= pred skip ->
               exists i : nat,
                 a = (pos + Z.of_nat i)%Z /\ b = (a + Z.of_nat (length p))%Z
                 /\ skip <= i /\ i + length p <= length (c :: s)
                 /\ Re.match_here p (skipn i (c :: s)) = true).
    { intros pos' skip' Hin -> Hsk.
      destruct (IH _ _ _ _ Hin) as (i & Ha & Hb & Hi & Hl & Hm).
      exists (S i). cbn [skipn length]. repeat split; try lia. assumption. }
    destruct skip as [|k].
    + destruct (Re.match_here p (c :: s)) eqn:Hm.
      * intros [H|H].
        -- injection H as <- <-. exists 0.
           apply match_here_length in Hm as Hl.
           repeat split; cbn [skipn]; try lia. assumption.
        -- eapply Hrest; eauto; cbn; lia.
      * intros H. eapply Hrest; eauto; cbn; lia.
    + intros H. eapply Hrest; eauto; cbn; lia.
Qed.

(** Every place where the pattern matches is reported, unless it lies
    inside a range reported before it. *)
Lemma finditer_from_complete (p : Re.pattern) (s : text) :
  forall pos skip i,
    skip <= i -> Re.match_here p (skipn i s) = true -> i <= length s ->
    In ((pos + Z.of_nat i)%Z, (pos + Z.of_nat i + Z.of_nat (length p))%Z)
       (Re.finditer_from p pos skip s)
    \/ exists a b, In (a, b) (Re.finditer_from p pos skip s)
                   /\ (a < pos + Z.of_nat i < b)%Z.
Proof.
  induction s as [|c s IH]; intros pos skip i Hsk Hm Hi;
    cbn [Re.finditer_from].
  - cbn in Hi. assert (i = 0) by lia. subst i. assert (skip = 0) by lia.
    subst skip. cbn in Hm. rewrite Hm. left. left.
    apply match_here_length in Hm. cbn in Hm. f_equal; lia.
  - assert (Hrest : forall skip' i',
               i = S i' -> skip' <= i' ->
               In ((pos + Z.of_nat i)%Z,
                   (pos + Z.of_nat i + Z.of_nat (length p))%Z)
                  (Re.finditer_from p (pos + 1) skip' s)
               \/ exists a b, In (a, b) (Re.finditer_from p (pos + 1) skip' s)
                              /\ (a < pos + Z.of_nat i < b)%Z).
    { intros skip' i' -> Hs'. cbn [skipn] in Hm. cbn [length] in Hi.
      destruct (IH (pos + 1)%Z skip' i' Hs' Hm ltac:(lia)) as [H|H].
      - left. replace (pos + Z.of_nat (S i'))%Z with (pos + 1 + Z.of_nat i')%Z
          by lia. assumption.
      - right. destruct H as (a & b & Hin & Hab). exists a, b.
        split; [assumption | lia]. }
    destruct skip as [|k].
    + destruct i as [|i'].
      * cbn [skipn] in Hm. rewrite Hm. left. left. f_equal; lia.
      * destruct (Re.match_here p (c :: s)) eqn:Hc.
        -- destruct (le_lt_dec (pred (length p)) i') as [Hge|Hlt].
           ++ destruct (Hrest (pred (length p)) i' eq_refl Hge) as [H|H].
              ** left. right. assumption.
              ** right. destruct H as (a & b & Hin & Hab). exists a, b.
                 split; [right; assumption | assumption].
           ++ right. exists pos, (pos + Z.of_nat (length p))%Z.
              split; [left; reflexivity | lia].
        -- destruct (Hrest 0 i' eq_refl ltac:(lia)) as [H|H]; auto.
    + destruct i as [|i']; [lia|].
      destruct (Hrest k i' eq_refl ltac:(lia)) as [H|H]; auto.
Qed.

(** ** Slices and windows *)

Lemma firstn_add {A} (a b : nat) (l : list A) :
  firstn (a + b) l = firstn a l ++ firstn b (skipn a l).
Proof.
  revert l. induction a as [|a IH]; intros [|x l]; cbn;
    rewrite ?firstn_nil; try reflexivity.
  now rewrite IH.
Qed.

Lemma slice_nat (h : text) (i j : nat) :
  i <= j -> j <= length h ->
  slice h (Z.of_nat i) (Z.of_nat j) = firstn (j - i) (skipn i h).
Proof.
  intros Hij Hj. unfold slice, clamp_index, len.
  destruct (Z.ltb_spec (Z.of_nat i) 0); [lia|].
  destruct (Z.ltb_spec (Z.of_nat j) 0); [lia|].
  rewrite !Z.min_l by lia. f_equal; [lia|]. f_equal. lia.
Qed.

(** The window around a range of the haystack is the range itself
    between at most 30 characters on each side. *)
Lemma window_split (h : text) (i n : nat) :
  i + n <= length h ->
  exists pre post,
    Server.window h (Z.of_nat i, (Z.of_nat i + Z.of_nat n)%Z)
    = pre ++ firstn n (skipn i h) ++ post
    /\ length pre <= 30 /\ length post <= 30.
Proof.
  intros Hin. unfold Server.window. cbn [fst snd].
  set (s' := i - 30). set (e' := Nat.min (length h) (i + n + 30)).
  replace (Z.max 0 (Z.of_nat i - 30)) with (Z.of_nat s') by (unfold s'; lia).
  replace (Z.min (len h) (Z.of_nat i + Z.of_nat n + 30)) with (Z.of_nat e')
    by (unfold e', len; lia).
  rewrite slice_nat by (unfold s', e'; lia).
  exists (firstn (i - s') (skipn s' h)),
         (firstn (e' - (i + n)) (skipn (i + n) h)).
  split; [|split].
  - replace (e' - s') with ((i - s') + (n + (e' - (i + n))))
      by (unfold s', e'; lia).
    rewrite firstn_add, skipn_skipn.
    replace (i - s' + s') with i by (unfold s'; lia).
    rewrite firstn_add, skipn_skipn.
    replace (n + i) with (i + n) by lia. reflexivity.
  - rewrite length_firstn. unfold s'. lia.
  - rewrite length_firstn. unfold e'. lia.
Qed.

(** ** The three loops of [extract_data], as zones *)

Section ExtractZones.
Import Server Zones.
Variables (keyword : text) (ts : Json.value) (url : text).

Lemma fold_found {X} (f : X -> Match) (l : list X) (acc : list Match) :
  fold_left (fun matches m => matches ++ [f m]) l acc = acc ++ map f l.
Proof.
  revert acc. induction l as [|x l IH]; intros acc; cbn.
  - now rewrite app_nil_r.
  - rewrite IH, <- app_assoc. reflexivity.
Qed.

Lemma search_visible_text_zone (doc : Bs4.soup) (matches : list Match) :
  search_visible_text ts url doc (Re.escape keyword) matches
  = Ok (matches ++ scan_zone keyword ts url TEXT (text_haystacks doc)).
Proof.
  unfold search_visible_text, text_haystacks.
  destruct (Bs4.find (str "body") doc) as [body|]; cbn.
  - rewrite compile_escape. cbn. rewrite app_nil_r.
    f_equal. apply fold_found.
  - now rewrite app_nil_r.
Qed.

Lemma search_scripts_zone (scripts : list Bs4.node) (matches : list Match) :
  search_scripts ts url scripts (Re.escape keyword) matches
  = Ok (matches ++ scan_zone keyword ts url JS (script_haystacks scripts)).
Proof.
  revert matches. unfold search_scripts, scan_zone.
  rewrite compile_escape.
  induction scripts as [|script scripts IH]; intros matches.
  - cbn. now rewrite app_nil_r.
  - unfold script_haystacks in *. cbn [Exn.for_each flat_map].
    destruct (Bs4.string_of script) as [[|c s]|];
      cbn [Exn.bind app]; try apply IH.
    rewrite fold_found, IH.
    rewrite <- app_assoc. reflexivity.
Qed.

Lemma search_comments_zone (doc : Bs4.soup) (matches : list Match) :
  search_comments ts url doc (Re.escape keyword) matches
  = Ok (matches ++ scan_zone keyword ts url COMMENT (comment_haystacks doc)).
Proof.
  revert matches. unfold search_comments, comment_haystacks, scan_zone.
  rewrite compile_escape.
  induction (Bs4.find_all_comments doc) as [|c cs IH]; intros matches.
  - cbn. now rewrite app_nil_r.
  - cbn [Exn.for_each filter].
    destruct (contains (str "FILE ARCHIVED ON") c);
      cbn [negb Exn.bind flat_map]; try apply IH.
    rewrite fold_found, IH.
    rewrite <- app_assoc. reflexivity.
Qed.

(** [extract_data] never raises on a parsed document, and its result
    is the three zones one after the other. *)
Lemma extract_zones (doc : Bs4.soup) :
  extract_from_soup keyword ts url doc
  = Ok (scan_zone keyword ts url TEXT (text_haystacks (cleaned doc))
        ++ scan_zone keyword ts url JS
             (script_haystacks (Bs4.find_all (str "script") (cleaned doc)))
        ++ scan_zone keyword ts url COMMENT
             (comment_haystacks (cleaned doc))).
Proof.
  unfold extract_from_soup, search_javascript. fold (cleaned doc).
  rewrite search_visible_text_zone. cbn [Exn.bind app].
  rewrite search_scripts_zone. cbn [Exn.bind].
  rewrite search_comments_zone. cbn [Exn.bind].
  now rewrite app_assoc.
Qed.

End ExtractZones.

Section ZoneFacts.
Import Server Zones.
Variables (keyword : text) (ts : Json.value) (url : text).

Lemma extract_haystacks (doc : Bs4.soup) :
  extract_from_soup keyword ts url doc
  = Ok (flat_map (fun zh => zone_matches keyword ts url (fst zh) (snd zh))
                 (haystacks doc)).
Proof.
  rewrite extract_zones. unfold haystacks, scan_zone. f_equal.
  rewrite !flat_map_app, !flat_map_concat_map, !map_map. reflexivity.
Qed.

Lemma zone_matches_tagged (ty : match_type) (h : text) :
  Forall (fun m => matchType m = ty /\ timestamp m = ts /\ archiveUrl m = url)
         (zone_matches keyword ts url ty h).
Proof.
  unfold zone_matches. apply Forall_forall. intros m Hin.
  apply in_map_iff in Hin. destruct Hin as (occ & <- & _). now cbn.
Qed.

Lemma scan_zone_tagged (ty : match_type) (hs : list text) :
  Forall (fun m => matchType m = ty /\ timestamp m = ts /\ archiveUrl m = url)
         (scan_zone keyword ts url ty hs).
Proof.
  unfold scan_zone. apply Forall_flat_map, Forall_forall.
  intros h _. apply zone_matches_tagged.
Qed.

End ZoneFacts.

(** C8: on every document the parser returns, [extract_data] returns the
    TEXT matches, then the JS matches, then the COMMENT matches, each
    zone's matches being those of its haystacks in order, and every
    match carries the timestamp and archive URL it was called with. *)
Theorem extract_data_zone_order (w : Server.world) (html keyword : text)
  (ts : Json.value) (url : text) (doc : Bs4.soup) :
  Server.BeautifulSoup w html = Ok doc ->
  exists text_ms js_ms comment_ms,
    Server.extract_data w html keyword ts url
    = Ok (text_ms ++ js_ms ++ comment_ms)
    /\ text_ms = Zones.scan_zone keyword ts url Server.TEXT
                   (Zones.text_haystacks (Zones.cleaned doc))
    /\ js_ms = Zones.scan_zone keyword ts url Server.JS
                 (Zones.script_haystacks
                    (Bs4.find_all (str "script") (Zones.cleaned doc)))
    /\ comment_ms = Zones.scan_zone keyword ts url Server.COMMENT
                      (Zones.comment_haystacks (Zones.cleaned doc))
    /\ Forall (fun m => Server.matchType m = Server.TEXT) text_ms
    /\ Forall (fun m => Server.matchType m = Server.JS) js_ms
    /\ Forall (fun m => Server.matchType m = Server.COMMENT) comment_ms
    /\ Forall (fun m => Server.timestamp m = ts /\ Server.archiveUrl m = url)
              (text_ms ++ js_ms ++ comment_ms).
Proof.
  intros Hdoc. unfold Server.extract_data. rewrite Hdoc. cbn [Exn.bind].
  rewrite extract_zones.
  do 3 eexists. split; [reflexivity|]. do 3 (split; [reflexivity|]).
  repeat split; try (eapply Forall_impl; [|apply scan_zone_tagged]; cbn; tauto).
  rewrite !Forall_app. repeat split;
    (eapply Forall_impl; [|apply scan_zone_tagged]; cbn; tauto).
Qed.

Lemma extract_data_zone_order_witness :
  exists text_ms js_ms comment_ms,
    Server.extract_data (Samples.serving Samples.page) (str "<html>")
                        (str "login") Json.JNull (str "u")
    = Ok (text_ms ++ js_ms ++ comment_ms)
    /\ map Server.snippet text_ms = [str "...Please login here..."]
    /\ map Server.snippet js_ms = [str "...var  login = 1;..."]
    /\ map Server.snippet comment_ms = [str "...LOGIN comment..."].
Proof.
  destruct (extract_data_zone_order (Samples.serving Samples.page)
              (str "<html>") (str "login") Json.JNull (str "u")
              (doc := Samples.page) eq_refl)
    as (t & j & c & H & -> & -> & -> & _).
  do 3 eexists. split; [exact H|]. repeat split; reflexivity.
Defined.

(** ** Occurrences of a literal keyword *)

Lemma occurrence_sound (keyword h : text) (s e : Z) :
  In (s, e) (Zones.occurrences keyword h) ->
  exists i : nat,
    s = Z.of_nat i /\ e = (s + len keyword)%Z
    /\ i + length keyword <= length h
    /\ slice h s e = firstn (length keyword) (skipn i h)
    /\ Zones.same_ignoring_case (slice h s e) keyword.
Proof.
  unfold Zones.occurrences, Re.finditer. intros Hin.
  apply finditer_from_sound in Hin.
  destruct Hin as (i & Hs & He & _ & Hl & Hm).
  rewrite length_map in *. apply match_here_literal in Hm.
  destruct Hm as [Hm _]. cbn in Hs.
  assert (Hslice : slice h s e = firstn (length keyword) (skipn i h)).
  { subst s e. unfold len. rewrite <- Nat2Z.inj_add.
    rewrite slice_nat by lia. f_equal. lia. }
  exists i. unfold len. repeat split; try assumption.
  now rewrite Hslice.
Qed.

Lemma occurrences_ordered (keyword h : text) :
  Zones.ordered 0 (Zones.occurrences keyword h).
Proof. apply (finditer_from_ordered (map Re.Lit keyword) h 0 0). Qed.

Lemma occurrences_empty_haystack (keyword : text) :
  keyword <> [] -> Zones.occurrences keyword [] = [].
Proof. destruct keyword; [congruence | reflexivity]. Qed.

Lemma finditer_empty_pattern (h : text) :
  forall pos, length (Re.finditer_from [] pos 0 h) = S (length h).
Proof.
  induction h as [|c h IH]; intros pos; cbn; [reflexivity|].
  now rewrite IH.
Qed.

(** C5: escaping makes every keyword a literal pattern, whatever
    characters it holds: the compiled pattern is the keyword's own
    characters, [extract_data] reports the occurrences of that literal
    pattern, and each reported range of a haystack reads as the keyword
    up to letter case. *)
Theorem keyword_is_literal (keyword : text) :
  Server.re_compile (Re.escape keyword) = Ok (map Re.Lit keyword)
  /\ (forall w html ts url doc,
         Server.BeautifulSoup w html = Ok doc ->
         Server.extract_data w html keyword ts url
         = Ok (flat_map (fun zh => Zones.zone_matches keyword ts url
                                     (fst zh) (snd zh))
                        (Zones.haystacks doc)))
  /\ (forall h s e,
         In (s, e) (Zones.occurrences keyword h) ->
         Zones.same_ignoring_case (slice h s e) keyword).
Proof.
  split; [apply compile_escape|]. split.
  - intros w html ts url doc Hdoc. unfold Server.extract_data.
    rewrite Hdoc. apply extract_haystacks.
  - intros h s e Hin. apply occurrence_sound in Hin.
    destruct Hin as (i & _ & _ & _ & _ & H). exact H.
Qed.

(** The keyword [a.b]: found as [A.B], not as [axb], which the pattern
    [a.b] left unescaped would match. *)
Lemma keyword_is_literal_witness :
  Server.re_compile (Re.escape (str "a.b"))
  = Ok [Re.Lit "a"; Re.Lit "."; Re.Lit "b"]%char
  /\ Zones.occurrences (str "a.b") (str "xA.Bx") = [(1, 4)]%Z
  /\ Zones.same_ignoring_case (slice (str "xA.Bx") 1 4) (str "a.b")
  /\ Zones.occurrences (str "a.b") (str "axb") = []
  /\ Server.extract_data (Samples.serving (Samples.text_page "axb"))
                         (str "<html>") (str "a.b") Json.JNull (str "u")
     = Ok []
  /\ (exists p, Re.parse (str "a.b") = Some p
                /\ Re.finditer p (str "axb") = [(0, 3)]%Z).
Proof.
  destruct (keyword_is_literal (str "a.b")) as (Hc & Hx & Ho).
  split; [exact Hc|]. split; [reflexivity|].
  split; [apply Ho; left; reflexivity|]. split; [reflexivity|].
  split.
  - rewrite (Hx (Samples.serving (Samples.text_page "axb")) (str "<html>")
               Json.JNull (str "u") (Samples.text_page "axb") eq_refl).
    reflexivity.
  - eexists. split; reflexivity.
Defined.

(** A script element without a [.string] takes no part in the loop
    over the script elements. *)
Lemma search_scripts_skip (ts : Json.value) (url : text)
  (escaped_keyword : text) (before after : list Bs4.node) (script : Bs4.node)
  (matches : list Server.Match) :
  Bs4.string_of script = None ->
  Server.search_scripts ts url (before ++ script :: after) escaped_keyword
                        matches
  = Server.search_scripts ts url (before ++ after) escaped_keyword matches.
Proof.
  intros Hnone. unfold Server.search_scripts. revert matches.
  induction before as [|b before IH]; intros matches; cbn [app Exn.for_each].
  - rewrite Hnone. reflexivity.
  - match goal with |- Exn.bind ?r _ = _ => destruct r as [ms|e] end;
      cbn [Exn.bind]; [apply IH | reflexivity].
Qed.

(** An element with no child or with several has no [.string]. *)
Lemma string_of_not_single (name : text) (attrs : list (text * text))
  (kids : list Bs4.node) :
  length kids <> 1 -> Bs4.string_of (Bs4.Tag name attrs kids) = None.
Proof.
  destruct kids as [|k [|k' kids]]; cbn; intros H; congruence.
Qed.

(** C10: in every document, a script element whose [.string] is [None]
    (it has no child, or several, whatever text they hold) adds nothing
    to the matches: the JS search of the document gives what the search
    over its other script elements gives. *)
Theorem script_without_string_is_skipped (ts : Json.value) (url : text)
  (escaped_keyword : text) (doc : Bs4.soup) (before after : list Bs4.node)
  (script : Bs4.node) (matches : list Server.Match) :
  Bs4.find_all (str "script") doc = before ++ script :: after ->
  Bs4.string_of script = None ->
  Server.search_javascript ts url doc escaped_keyword matches
  = Server.search_scripts ts url (before ++ after) escaped_keyword matches.
Proof.
  intros Hscripts Hnone. unfold Server.search_javascript.
  rewrite Hscripts. now apply search_scripts_skip.
Qed.

(** The script split in [lo] and [gin] yields nothing for [login]; the
    same text in one string node is found. *)
Lemma script_without_string_is_skipped_witness :
  Bs4.string_of (Samples.script_node None ["lo"; "gin"]%string) = None
  /\ Server.search_javascript Json.JNull (str "u")
       [Samples.element "body" [Samples.script_node None ["lo"; "gin"]%string]]
       (Re.escape (str "login")) []
     = Ok []
  /\ (exists m,
         Server.search_javascript Json.JNull (str "u")
           [Samples.element "body" [Samples.script_node None ["login"]%string]]
           (Re.escape (str "login")) []
         = Ok [m]).
Proof.
  split; [reflexivity|]. split.
  - rewrite (@script_without_string_is_skipped Json.JNull (str "u")
               (Re.escape (str "login"))
               [Samples.element "body"
                  [Samples.script_node None ["lo"; "gin"]%string]]
               [] [] (Samples.script_node None ["lo"; "gin"]%string) []
               eq_refl eq_refl).
    reflexivity.
  - eexists. reflexivity.
Defined.

(** ** Empty keyword, empty haystack *)

Lemma length_flat_map {A B} (f : A -> list B) (l : list A) :
  length (flat_map f l) = list_sum (map (fun x => length (f x)) l).
Proof.
  induction l as [|x l IH]; cbn; [reflexivity|].
  now rewrite length_app, IH.
Qed.

(** C4, as stated, fails: with the empty keyword the paragraph [ab]
    gives three occurrences, one at each offset, and three matches. *)
Lemma empty_keyword_counterexample :
  Zones.occurrences [] (str "ab") = [(0, 0); (1, 1); (2, 2)]%Z
  /\ exists ms,
      Server.extract_data (Samples.serving (Samples.text_page "ab"))
                          (str "<html>") [] Json.JNull (str "u") = Ok ms
      /\ map Server.snippet ms
         = [str "...ab..."; str "...ab..."; str "...ab..."]
      /\ ms <> [].
Proof.
  split; [reflexivity|]. eexists. split; [reflexivity|].
  split; [reflexivity | discriminate].
Qed.

(** C4, amended: an empty haystack gives no occurrence of a non-empty
    keyword, and a document whose haystacks are all empty gives no
    match, without an exception; [scan] rejects a missing or empty
    keyword with status 400 before any scanning; [extract_data] itself,
    given the empty keyword, reports one match per offset of every
    haystack (its length plus one). *)
Theorem empty_haystack_or_keyword (ts : Json.value) (url : text) :
  (forall keyword ty,
      keyword <> [] ->
      Zones.occurrences keyword [] = []
      /\ Zones.zone_matches keyword ts url ty [] = [])
  /\ (forall keyword doc,
         keyword <> [] ->
         Forall (fun zh => snd zh = []) (Zones.haystacks doc) ->
         Server.extract_from_soup keyword ts url doc = Ok [])
  /\ (forall w domain year limit,
         Server.scan w domain year None limit
         = Server.Rejected 400
             (str "Missing required parameters: domain and keyword")
         /\ Server.scan w domain year (Some []) limit
            = Server.Rejected 400
                (str "Missing required parameters: domain and keyword"))
  /\ (forall doc,
         exists ms,
           Server.extract_from_soup [] ts url doc = Ok ms
           /\ length ms
              = list_sum (map (fun zh => S (length (snd zh)))
                              (Zones.haystacks doc))).
Proof.
  split; [|split; [|split]].
  - intros keyword ty Hne. unfold Zones.zone_matches.
    rewrite (occurrences_empty_haystack Hne). split; reflexivity.
  - intros keyword doc Hne Hall. rewrite extract_haystacks. f_equal.
    induction Hall as [|[ty h] hs Hh _ IH]; [reflexivity|].
    cbn in Hh. subst h. cbn [flat_map fst snd].
    unfold Zones.zone_matches at 1.
    rewrite (occurrences_empty_haystack Hne). exact IH.
  - intros w domain year limit.
    unfold Server.scan. destruct domain as [[|d domain]|]; split; reflexivity.
  - intros doc. eexists. split; [apply extract_haystacks|].
    rewrite length_flat_map. f_equal. apply map_ext. intros [ty h].
    unfold Zones.zone_matches, Zones.occurrences, Re.finditer. cbn [fst snd map].
    rewrite length_map. apply finditer_empty_pattern.
Qed.

Lemma empty_haystack_or_keyword_witness :
  Zones.occurrences (str "login") [] = []
  /\ Server.extract_from_soup (str "login") Json.JNull (str "u")
                              (Samples.text_page "") = Ok []
  /\ Server.scan (Samples.serving Samples.page) (Some (str "example.com"))
                 None (Some []) None
     = Server.Rejected 400
         (str "Missing required parameters: domain and keyword").
Proof.
  destruct (empty_haystack_or_keyword Json.JNull (str "u"))
    as (H1 & H2 & H3 & _).
  split; [|split].
  - apply (H1 (str "login") Server.TEXT). discriminate.
  - apply H2; [discriminate|]. vm_compute. repeat constructor.
  - apply H3.
Defined.

(** ** Whitespace: collapsing, newlines, stripping *)

Lemma sub_ws_in_run_head (s : text) :
  match Re.sub_ws_from true s with
  | d :: _ => isspace d = false
  | [] => True
  end.
Proof.
  induction s as [|c s IH]; cbn; [exact I|].
  destruct (isspace c) eqn:Hc; [exact IH | exact Hc].
Qed.

Lemma sub_ws_collapsed (s : text) :
  forall in_run, Zones.collapsed (Re.sub_ws_from in_run s).
Proof.
  induction s as [|c s IH]; intros in_run; cbn [Re.sub_ws_from]; [exact I|].
  destruct (isspace c) eqn:Hc.
  - destruct in_run; [apply IH|]. cbn [Zones.collapsed]. split; [|apply IH].
    intros _. split; [reflexivity | apply sub_ws_in_run_head].
  - cbn [Zones.collapsed]. split; [|apply IH]. intros H. congruence.
Qed.

Lemma collapsed_no_newline (s : text) :
  Zones.collapsed s -> Forall (fun c => c <> newline) s.
Proof.
  induction s as [|c s IH]; cbn; intros H; constructor.
  - intros ->. destruct H as [H _]. destruct (H eq_refl) as [H' _].
    discriminate H'.
  - apply IH, H.
Qed.

Lemma replace_newline_id (s : text) :
  Forall (fun c => c <> newline) s -> replace_newline s = s.
Proof.
  induction 1 as [|c s Hc _ IH]; [reflexivity|].
  unfold replace_newline in *. cbn [map]. rewrite IH.
  destruct (Ascii.eqb_spec c newline); congruence.
Qed.

Lemma Forall_firstn_skipn {A} (P : A -> Prop) (n k : nat) (l : list A) :
  Forall P l -> Forall P (firstn n (skipn k l)).
Proof.
  intros H. rewrite <- (firstn_skipn k l) in H.
  apply Forall_app in H. destruct H as [_ H].
  rewrite <- (firstn_skipn n (skipn k l)) in H.
  apply Forall_app in H. apply H.
Qed.

Lemma slice_Forall (P : ascii -> Prop) (s : text) (a b : Z) :
  Forall P s -> Forall P (slice s a b).
Proof. intros H. unfold slice. now apply Forall_firstn_skipn. Qed.

Lemma lstrip_keeps (a m : text) (c : ascii) (r : text) :
  m = c :: r -> isspace c = false -> exists a', lstrip (a ++ m) = a' ++ m.
Proof.
  intros -> Hc. induction a as [|x a IH]; cbn.
  - rewrite Hc. now exists [].
  - destruct (isspace x); [exact IH | now exists (x :: a)].
Qed.

Lemma rstrip_keeps (m b : text) (c : ascii) (r : text) :
  rev m = c :: r -> isspace c = false -> exists b', rstrip (m ++ b) = m ++ b'.
Proof.
  intros Hm Hc. unfold rstrip. rewrite rev_app_distr.
  destruct (@lstrip_keeps (rev b) _ _ _ Hm Hc) as (b' & ->).
  exists (rev b'). now rewrite rev_app_distr, rev_involutive.
Qed.

(** Stripping keeps a part that starts and ends with a character that
    is not whitespace. *)
Lemma strip_keeps (a m b : text) (c d : ascii) (r r' : text) :
  m = c :: r -> isspace c = false ->
  rev m = d :: r' -> isspace d = false ->
  exists a' b', strip (a ++ m ++ b) = a' ++ m ++ b'.
Proof.
  intros Hm Hc Hr Hd. unfold strip.
  assert (Hmb : m ++ b = c :: (r ++ b)) by now rewrite Hm.
  destruct (@lstrip_keeps a _ _ _ Hmb Hc) as (a' & ->).
  assert (Hrev : rev (a' ++ m) = d :: (r' ++ rev a'))
    by now rewrite rev_app_distr, Hr.
  rewrite app_assoc.
  destruct (@rstrip_keeps _ b _ _ Hrev Hd) as (b' & ->).
  exists a', b'. now rewrite <- app_assoc.
Qed.

(** ** What a match of the keyword inherits from the keyword *)

Lemma same_case_no_newline (m keyword : text) :
  Zones.same_ignoring_case m keyword -> Zones.no_newline keyword = true ->
  Forall (fun c => c <> newline) m.
Proof.
  unfold Zones.same_ignoring_case, Zones.no_newline.
  revert keyword. induction m as [|c m IH]; intros [|k kw] Hsame Hnn;
    try discriminate; constructor; cbn [map forallb] in *;
    injection Hsame as Hc Hm; apply andb_true_iff in Hnn;
    destruct Hnn as [Hk Hkw].
  - intros Hcn. symmetry in Hc. apply (@lower_newline k c Hc) in Hcn.
    subst k. discriminate Hk.
  - eapply IH; eauto.
Qed.

Lemma same_case_head (m keyword : text) :
  Zones.same_ignoring_case m keyword ->
  match keyword with c :: _ => negb (isspace c) | [] => false end = true ->
  exists c r, m = c :: r /\ isspace c = false.
Proof.
  unfold Zones.same_ignoring_case.
  destruct keyword as [|k kw]; [discriminate|]. destruct m as [|c m];
    [discriminate|]. cbn. intros H Hk. injection H as Hc _.
  exists c, m. split; [reflexivity|].
  destruct (isspace c) eqn:Hs; [|reflexivity].
  symmetry in Hc. rewrite (lower_space k c Hc Hs) in Hk. discriminate.
Qed.

Lemma same_case_edges (m keyword : text) :
  Zones.same_ignoring_case m keyword -> Zones.clean_edges keyword = true ->
  (exists c r, m = c :: r /\ isspace c = false)
  /\ (exists d r', rev m = d :: r' /\ isspace d = false).
Proof.
  unfold Zones.clean_edges. intros H He.
  apply andb_true_iff in He. destruct He as [Hh Hl]. split.
  - eapply same_case_head; eauto.
  - apply (@same_case_head (rev m) (rev keyword)); [|exact Hl].
    unfold Zones.same_ignoring_case in *. now rewrite !map_rev, H.
Qed.

(** ** Snippets *)

Lemma text_haystack_collapsed (doc : Bs4.soup) (h : text) :
  In (Server.TEXT, h) (Zones.haystacks doc) -> Zones.collapsed h.
Proof.
  unfold Zones.haystacks. rewrite !in_app_iff, !in_map_iff.
  intros [(h' & Hp & Hin) | [(h' & Hp & _) | (h' & Hp & _)]];
    try discriminate Hp.
  injection Hp as ->. unfold Zones.text_haystacks in Hin.
  destruct (Bs4.find (str "body") (Zones.cleaned doc)); [|destruct Hin].
  destruct Hin as [<- | []]. apply sub_ws_collapsed.
Qed.

(** Every match of the result comes from an occurrence in a haystack of
    its zone. *)
Lemma match_origin (keyword : text) (ts : Json.value) (url : text)
  (doc : Bs4.soup) (ms : list Server.Match) (m : Server.Match) :
  Server.extract_from_soup keyword ts url doc = Ok ms -> In m ms ->
  exists h occ,
    In (Server.matchType m, h) (Zones.haystacks doc)
    /\ In occ (Zones.occurrences keyword h)
    /\ Server.snippet m = Zones.snippet_of (Server.matchType m) h occ.
Proof.
  rewrite extract_haystacks. intros H Hin. injection H as <-.
  apply in_flat_map in Hin. destruct Hin as ([ty h] & Hzone & Hin).
  unfold Zones.zone_matches in Hin. apply in_map_iff in Hin.
  destruct Hin as (occ & <- & Hocc). cbn. now exists h, occ.
Qed.

(** C6, as stated, fails.  In a script the two spaces of [a  login]
    stay two; in the visible text a window that starts on a space keeps
    it after the ellipsis. *)
Lemma documented_snippet_counterexample :
  (exists m,
      Server.extract_data (Samples.serving (Samples.script_page "a  login"))
                          (str "<html>") (str "login") Json.JNull (str "u")
      = Ok [m]
      /\ Zones.occurrences (str "login") (str "a  login") = [(3, 8)]%Z
      /\ Server.snippet m = str "...a  login..."
      /\ Zones.documented_snippet (str "a  login") (3, 8)%Z
         = str "...a login..."
      /\ Server.snippet m
         <> Zones.documented_snippet (str "a  login") (3, 8)%Z)
  /\ (exists m,
         Server.extract_data
           (Samples.serving
              (Samples.text_page "x ccccccccccccccccccccccccccccclogin"))
           (str "<html>") (str "login") Json.JNull (str "u")
         = Ok [m]
         /\ Server.snippet m = str "... ccccccccccccccccccccccccccccclogin..."
         /\ Zones.documented_snippet
              (str "x ccccccccccccccccccccccccccccclogin") (31, 36)%Z
            = str "...ccccccccccccccccccccccccccccclogin..."
         /\ Server.snippet m
            <> Zones.documented_snippet
                 (str "x ccccccccccccccccccccccccccccclogin") (31, 36)%Z).
Proof.
  split; eexists; (split; [reflexivity|]);
    repeat (split; [reflexivity|]); vm_compute; discriminate.
Qed.

(** C6, amended: every emitted snippet is the window
    [max(0, start-30) .. min(len, end+30)] of its haystack between two
    ellipses, after the treatment of its zone.  TEXT: the haystack has
    its whitespace runs collapsed to single spaces beforehand and the
    window is taken as it is.  JS: the newlines of the window become
    spaces and the result is stripped.  COMMENT: the window is
    stripped. *)
Theorem snippet_per_zone (w : Server.world) (html keyword : text)
  (ts : Json.value) (url : text) (doc : Bs4.soup)
  (ms : list Server.Match) (m : Server.Match) :
  Server.BeautifulSoup w html = Ok doc ->
  Server.extract_data w html keyword ts url = Ok ms ->
  In m ms ->
  exists h s e,
    In (Server.matchType m, h) (Zones.haystacks doc)
    /\ In (s, e) (Zones.occurrences keyword h)
    /\ let window :=
         slice h (Z.max 0 (s - 30)) (Z.min (len h) (e + 30)) in
       match Server.matchType m with
       | Server.TEXT =>
           Zones.collapsed h
           /\ Server.snippet m = str "..." ++ window ++ str "..."
       | Server.JS =>
           Server.snippet m
           = str "..." ++ strip (replace_newline window) ++ str "..."
       | Server.COMMENT =>
           Server.snippet m = str "..." ++ strip window ++ str "..."
       end.
Proof.
  intros Hdoc Hms Hin. unfold Server.extract_data in Hms.
  rewrite Hdoc in Hms. cbn [Exn.bind] in Hms.
  destruct (@match_origin _ _ _ _ _ _ Hms Hin) as (h & [s e] & Hzone & Hocc & Hsn).
  exists h, s, e. split; [exact Hzone|]. split; [exact Hocc|].
  rewrite Hsn. unfold Zones.snippet_of, Zones.normalise, Server.window.
  cbn [fst snd]. destruct (Server.matchType m); try reflexivity.
  pose proof (@text_haystack_collapsed _ _ Hzone) as Hcol.
  split; [exact Hcol|].
  rewrite replace_newline_id; [reflexivity|].
  apply slice_Forall, collapsed_no_newline, Hcol.
Qed.

Lemma snippet_per_zone_witness :
  exists h s e,
    In (Server.JS, h) (Zones.haystacks (Samples.script_page "a  login"))
    /\ In (s, e) (Zones.occurrences (str "login") h)
    /\ str "...a  login..."
       = str "..."
           ++ strip (replace_newline
                       (slice h (Z.max 0 (s - 30)) (Z.min (len h) (e + 30))))
           ++ str "...".
Proof.
  exact (@snippet_per_zone
           (Samples.serving (Samples.script_page "a  login")) (str "<html>")
           (str "login") Json.JNull (str "u")
           (Samples.script_page "a  login")
           [Server.found Json.JNull (str "u") Server.JS (str "...a  login...")]
           (Server.found Json.JNull (str "u") Server.JS (str "...a  login..."))
           eq_refl eq_refl (or_introl eq_refl)).
Defined.

(** ** Occurrences within one zone *)

(** The matched text survives in the snippet of its zone, for the
    keywords the zone's normalisation cannot damage. *)
Lemma matched_text_in_snippet (keyword : text) (doc : Bs4.soup)
  (ty : Server.match_type) (h : text) (s e : Z) :
  In (ty, h) (Zones.haystacks doc) ->
  In (s, e) (Zones.occurrences keyword h) ->
  Zones.survives ty keyword = true ->
  Zones.is_substring (slice h s e) (Zones.snippet_of ty h (s, e)).
Proof.
  intros Hzone Hocc Hsurv.
  destruct (@occurrence_sound _ _ _ _ Hocc) as (i & Hs & He & Hl & Hsl & Hsame).
  destruct (@window_split h i (length keyword) Hl) as (pre & post & Hw & _).
  assert (Hocc' : (s, e) = (Z.of_nat i, (Z.of_nat i + Z.of_nat (length keyword))%Z))
    by (subst s e; reflexivity).
  rewrite <- Hsl in Hw. set (m := slice h s e) in *.
  unfold Zones.snippet_of, Zones.is_substring, Zones.normalise.
  rewrite Hocc'.
  destruct ty; cbn [Zones.survives] in Hsurv.
  - (* TEXT: the haystack holds no newline *)
    pose proof (@text_haystack_collapsed _ _ Hzone) as Hcol.
    rewrite replace_newline_id.
    + rewrite Hw. exists (str "..." ++ pre), (post ++ str "...").
      now rewrite <- !app_assoc.
    + unfold Server.window. apply slice_Forall, collapsed_no_newline, Hcol.
  - (* JS *)
    apply andb_true_iff in Hsurv. destruct Hsurv as [Hedges Hnn].
    destruct (same_case_edges Hsame Hedges)
      as ((c & r & Hm & Hc) & (d & r' & Hr & Hd)).
    rewrite Hw. unfold replace_newline. rewrite !map_app.
    fold (replace_newline m).
    rewrite (replace_newline_id (same_case_no_newline Hsame Hnn)).
    destruct (@strip_keeps
                (map (fun c => if Ascii.eqb c newline then space else c) pre)
                m
                (map (fun c => if Ascii.eqb c newline then space else c) post)
                c d r r' Hm Hc Hr Hd) as (a' & b' & ->).
    exists (str "..." ++ a'), (b' ++ str "..."). now rewrite <- !app_assoc.
  - (* COMMENT *)
    destruct (same_case_edges Hsame Hsurv)
      as ((c & r & Hm & Hc) & (d & r' & Hr & Hd)).
    rewrite Hw.
    destruct (@strip_keeps pre m post c d r r' Hm Hc Hr Hd) as (a' & b' & ->).
    exists (str "..." ++ a'), (b' ++ str "..."). now rewrite <- !app_assoc.
Qed.

(** C7, as stated, fails for a keyword with whitespace at an end: the
    keyword [ x] is found at the start of the script [ x=1], and the
    stripped snippet no longer holds the matched text. *)
Lemma matched_text_lost_counterexample :
  exists m,
    Server.extract_data (Samples.serving (Samples.script_page " x=1"))
                        (str "<html>") (str " x") Json.JNull (str "u")
    = Ok [m]
    /\ Zones.occurrences (str " x") (str " x=1") = [(0, 2)]%Z
    /\ slice (str " x=1") 0 2 = str " x"
    /\ Server.snippet m = str "...x=1..."
    /\ contains (str " x") (Server.snippet m) = false.
Proof.
  eexists. repeat (split; [reflexivity|]). reflexivity.
Qed.

(** C7, amended: for a non-empty keyword the result of [extract_data]
    is made of the occurrences of the keyword in each haystack; within
    one haystack they are in increasing order and do not overlap, each
    is a range of the haystack of the keyword's length that reads as the
    keyword up to letter case, and every place of the whole haystack
    that reads so is reported unless it lies inside an earlier
    occurrence.  The snippet of an occurrence holds the matched text as
    it is in the haystack: always in the TEXT zone; in the COMMENT zone
    when the keyword neither starts nor ends with whitespace; in the JS
    zone when moreover it has no newline. *)
Theorem occurrences_in_zone (w : Server.world) (html keyword : text)
  (ts : Json.value) (url : text) (doc : Bs4.soup) :
  keyword <> [] ->
  Server.BeautifulSoup w html = Ok doc ->
  Server.extract_data w html keyword ts url
  = Ok (flat_map (fun zh => Zones.zone_matches keyword ts url (fst zh) (snd zh))
                 (Zones.haystacks doc))
  /\ forall ty h,
      In (ty, h) (Zones.haystacks doc) ->
      Zones.ordered 0 (Zones.occurrences keyword h)
      /\ (forall s e,
             In (s, e) (Zones.occurrences keyword h) ->
             (0 <= s < e /\ e = s + len keyword /\ e <= len h)%Z
             /\ Zones.same_ignoring_case (slice h s e) keyword
             /\ (Zones.survives ty keyword = true ->
                 Zones.is_substring (slice h s e)
                                    (Zones.snippet_of ty h (s, e))))
      /\ (forall i : nat,
             i + length keyword <= length h ->
             Zones.same_ignoring_case (firstn (length keyword) (skipn i h))
                                      keyword ->
             In (Z.of_nat i, (Z.of_nat i + len keyword)%Z)
                (Zones.occurrences keyword h)
             \/ exists a b, In (a, b) (Zones.occurrences keyword h)
                            /\ (a < Z.of_nat i < b)%Z).
Proof.
  intros Hne Hdoc. split.
  - unfold Server.extract_data. rewrite Hdoc. apply extract_haystacks.
  - intros ty h Hzone. split; [apply occurrences_ordered|]. split.
    + intros s e Hocc.
      destruct (@occurrence_sound _ _ _ _ Hocc)
        as (i & Hs & He & Hl & _ & Hsame).
      assert (0 < length keyword) by (destruct keyword; cbn; [congruence|lia]).
      split; [unfold len in *; lia|]. split; [exact Hsame|].
      intros Hsurv. eapply matched_text_in_snippet; eauto.
    + intros i Hl Hsame.
      assert (Hm : Re.match_here (map Re.Lit keyword) (skipn i h) = true).
      { apply match_here_literal. split; [exact Hsame|].
        rewrite length_skipn. lia. }
      destruct (@finditer_from_complete (map Re.Lit keyword) h 0 0 i
                  ltac:(lia) Hm ltac:(lia)) as [H|H].
      * left. rewrite length_map in H. exact H.
      * right. exact H.
Qed.

Lemma occurrences_in_zone_witness :
  Zones.occurrences (str "login") (str "var  Login = 1; LOGIN()")
  = [(5, 10); (16, 21)]%Z
  /\ Zones.same_ignoring_case (slice (str "var  Login = 1; LOGIN()") 16 21)
                              (str "login")
  /\ Zones.is_substring
       (str "LOGIN")
       (Zones.snippet_of Server.JS (str "var  Login = 1; LOGIN()") (16, 21)%Z).
Proof.
  destruct (@occurrences_in_zone
              (Samples.serving
                 (Samples.script_page "var  Login = 1; LOGIN()"))
              (str "<html>") (str "login") Json.JNull (str "u")
              (Samples.script_page "var  Login = 1; LOGIN()")
              ltac:(discriminate) eq_refl) as [_ H].
  destruct (H Server.JS (str "var  Login = 1; LOGIN()")
              (or_intror (or_introl eq_refl))) as (_ & Hocc & _).
  destruct (Hocc 16%Z 21%Z (or_intror (or_introl eq_refl)))
    as (_ & Hsame & Hsub).
  split; [reflexivity|]. split; [exact Hsame|]. exact (Hsub eq_refl).
Defined.

(** ** The generator *)

Section Generator.
Import Server Stream.
Variables (w : world) (keyword : text).

Lemma for_each_yield {X} (f : X -> event) (xs : list X) (s : bool) :
  Gen.for_each xs (fun x => Gen.yield (f x)) s = (s, map f xs, Ok tt).
Proof.
  revert s. induction xs as [|x xs IH]; intros s; [reflexivity|].
  cbn [Gen.for_each map]. unfold Gen.bind at 1. cbn. now rewrite IH.
Qed.

(** One turn of the loop: the events of the capture, and [found_any]
    set when the capture had matches. *)
Lemma scan_snapshot_events (total : nat) (item : nat * snapshot) (s : bool) :
  scan_snapshot w keyword total item s
  = (s || has_matches w keyword item,
     capture_events w keyword total item, Ok tt).
Proof.
  destruct item as [i snap].
  unfold scan_snapshot, capture_events, capture_progress, has_matches,
    capture_matches.
  unfold Gen.bind at 1, Gen.yield at 1, Gen.try_except. cbn [fst snd].
  destruct (archive_get w i (archive_url_of w snap))
    as [e | status_code html].
  - cbn. now rewrite orb_false_r.
  - destruct (status_code =? 200)%Z.
    + unfold Gen.bind at 1, Gen.call.
      destruct (extract_data w html keyword (snap_timestamp snap)
                             (archive_url_of w snap)) as [[|m ms]|e].
      * cbn. now rewrite orb_false_r.
      * unfold Gen.bind, Gen.set_found_any.
        rewrite for_each_yield. cbn. now rewrite orb_true_r.
      * cbn. now rewrite orb_false_r.
    + cbn. now rewrite orb_false_r.
Qed.

Lemma loop_events (total : nat) (items : list (nat * snapshot)) (s : bool) :
  Gen.for_each items (scan_snapshot w keyword total) s
  = (s || existsb (has_matches w keyword) items,
     flat_map (capture_events w keyword total) items, Ok tt).
Proof.
  revert s. induction items as [|item items IH]; intros s.
  - cbn. now rewrite orb_false_r.
  - cbn [Gen.for_each existsb flat_map]. unfold Gen.bind.
    rewrite scan_snapshot_events, IH. now rewrite orb_assoc.
Qed.

End Generator.

Section GenerateFacts.
Import Server Stream.
Variables (w : world) (domain : text) (year : option text)
          (keyword : text) (limit : Z).

(** The stream of a scan, written out. *)
Lemma generate_events :
  generate w domain year keyword limit
  = match fetch_snapshots w domain year limit with
    | [] => [contacting domain;
             Complete (str "No snapshots found for this criteria.")]
    | snapshots =>
        contacting domain
        :: analyzing (length snapshots) keyword
        :: flat_map (capture_events w keyword (length snapshots))
                    (enumerate snapshots)
        ++ [Complete
              (if existsb (has_matches w keyword) (enumerate snapshots)
               then str "Scan complete."
               else str "Scan finished. No matches found.")]
    end.
Proof.
  unfold generate, generate_body, Gen.events, Gen.try_except.
  destruct (fetch_snapshots w domain year limit) as [|snap snaps];
    [reflexivity|].
  set (snapshots := snap :: snaps).
  unfold Gen.bind at 1. unfold Gen.yield at 1.
  unfold Gen.bind at 1. unfold Gen.yield at 1.
  unfold Gen.bind at 1. unfold Gen.set_found_any at 1.
  unfold Gen.bind at 1. rewrite loop_events.
  unfold Gen.bind, Gen.get_found_any. cbn [orb].
  destruct (existsb (has_matches w keyword) (enumerate snapshots));
    cbn; now rewrite ?app_nil_r.
Qed.

End GenerateFacts.

(** ** Discovery *)

(** C3: when the index request raises, answers with a status other than
    200, or its payload is not JSON or not a list of two rows or more,
    [fetch_snapshots] returns the empty list, and the stream of the scan
    is the progress event of the contact followed by a [complete] event
    with the message that no snapshots were found: no [error] event. *)
Theorem discovery_failure_completes (w : Server.world) (domain : text)
  (year : option text) (keyword : text) (limit : Z) :
  Stream.discovery_failed
    (Server.cdx_get w (Server.cdx_params domain year limit)) = true ->
  Server.fetch_snapshots w domain year limit = []
  /\ Server.generate w domain year keyword limit
     = [Stream.contacting domain;
        Server.Complete (str "No snapshots found for this criteria.")].
Proof.
  intros Hfail.
  assert (Hnone : Server.fetch_snapshots w domain year limit = []).
  { unfold Server.fetch_snapshots, Server.fetch_snapshots_try.
    unfold Stream.discovery_failed in Hfail.
    destruct (Server.cdx_get w (Server.cdx_params domain year limit))
      as [e | status_code body]; [reflexivity|].
    destruct (negb (status_code =? 200)%Z); [reflexivity|].
    cbn [orb] in Hfail. destruct body as [data|e]; [|reflexivity].
    cbn [Exn.bind]. destruct data; try reflexivity.
    rewrite Hfail. reflexivity. }
  split; [exact Hnone|]. rewrite generate_events, Hnone. reflexivity.
Qed.

(** A header row alone, a server error, a timeout, a payload that is not
    JSON: each gives the same two events. *)
Lemma discovery_failure_completes_witness :
  let stream :=
    [Stream.contacting (str "example.com");
     Server.Complete (str "No snapshots found for this criteria.")] in
  Server.generate
    (Samples.world_of (Server.HttpResponse 200 (Ok (Samples.cdx_rows [])))
                      Samples.timed_out (Ok Samples.page))
    (str "example.com") None (str "login") 100 = stream
  /\ Server.generate
       (Samples.world_of (Server.HttpResponse 503 (Ok Json.JNull))
                         Samples.timed_out (Ok Samples.page))
       (str "example.com") None (str "login") 100 = stream
  /\ Server.generate
       (Samples.world_of (Server.HttpRaise (Exception (str "ConnectTimeout")))
                         Samples.timed_out (Ok Samples.page))
       (str "example.com") None (str "login") 100 = stream
  /\ Server.generate
       (Samples.world_of
          (Server.HttpResponse 200 (Raise (Exception (str "JSONDecodeError"))))
          Samples.timed_out (Ok Samples.page))
       (str "example.com") None (str "login") 100 = stream.
Proof.
  cbv zeta. split; [|split; [|split]];
    match goal with
    | |- Server.generate ?w ?d ?y ?k ?l = _ =>
        exact (proj2 (@discovery_failure_completes w d y k l eq_refl))
    end.
Defined.

(** ** The capture loop *)

Section LoopFacts.
Import Server Stream.
Variables (w : world) (keyword : text).

Lemma failed_capture_no_matches (item : nat * snapshot) :
  capture_failed w keyword item = true -> capture_matches w keyword item = [].
Proof.
  destruct item as [i snap]. unfold capture_failed, capture_matches.
  destruct (archive_get w i (archive_url_of w snap))
    as [e | status_code html]; [reflexivity|].
  destruct (status_code =? 200)%Z; [|reflexivity]. cbn [negb orb].
  destruct (extract_data w html keyword (snap_timestamp snap)
                         (archive_url_of w snap)); [discriminate|reflexivity].
Qed.

Lemma capture_events_match (total : nat) (item : nat * snapshot) :
  existsb is_match (capture_events w keyword total item)
  = has_matches w keyword item.
Proof.
  unfold capture_events, has_matches. cbn [existsb is_match capture_progress].
  destruct (capture_matches w keyword item); reflexivity.
Qed.

Lemma loop_events_match (total : nat) (items : list (nat * snapshot)) :
  existsb is_match (flat_map (capture_events w keyword total) items)
  = existsb (has_matches w keyword) items.
Proof.
  induction items as [|item items IH]; [reflexivity|].
  cbn [flat_map existsb]. now rewrite existsb_app, capture_events_match, IH.
Qed.

Lemma loop_events_not_terminal (total : nat) (items : list (nat * snapshot)) :
  Forall (fun e => is_terminal e = false)
         (flat_map (capture_events w keyword total) items).
Proof.
  apply Forall_flat_map, Forall_forall. intros item _.
  unfold capture_events. constructor; [reflexivity|].
  apply Forall_forall. intros e He. apply in_map_iff in He.
  destruct He as (m & <- & _). reflexivity.
Qed.

End LoopFacts.

Lemma terminal_not_complete (evs : list Server.event) :
  Forall (fun e => Stream.is_terminal e = false) evs ->
  Forall (fun e => Stream.is_complete e = false) evs.
Proof.
  apply Forall_impl. intros [ | | | ]; cbn; congruence.
Qed.

(** C9: a scan with captures to loop over ends with a [complete] event,
    the only one of the stream, whose message is [Scan complete.] when a
    [match] event was emitted before it and
    [Scan finished. No matches found.] when none was. *)
Theorem complete_message (w : Server.world) (domain : text)
  (year : option text) (keyword : text) (limit : Z) :
  Server.fetch_snapshots w domain year limit <> [] ->
  exists before,
    Server.generate w domain year keyword limit
    = before
      ++ [Server.Complete
            (if existsb Stream.is_match before
             then str "Scan complete."
             else str "Scan finished. No matches found.")]
    /\ Forall (fun e => Stream.is_complete e = false) before.
Proof.
  intros Hne. rewrite generate_events.
  destruct (Server.fetch_snapshots w domain year limit) as [|snap snaps];
    [congruence|].
  set (snapshots := snap :: snaps).
  exists (Stream.contacting domain
          :: Stream.analyzing (length snapshots) keyword
          :: flat_map (Stream.capture_events w keyword (length snapshots))
                      (Server.enumerate snapshots)).
  split.
  - cbn [existsb Stream.is_match Stream.contacting Stream.analyzing orb].
    rewrite loop_events_match. reflexivity.
  - do 2 (constructor; [reflexivity|]).
    apply terminal_not_complete, loop_events_not_terminal.
Qed.

(** Scenario A of the design document, and the same capture timing
    out (scenario C). *)
Lemma complete_message_witness :
  (exists before,
      Server.generate (Samples.serving (Samples.text_page "Please login here"))
                      (str "example.com") None (str "login") 100
      = before ++ [Server.Complete (str "Scan complete.")]
      /\ existsb Stream.is_match before = true)
  /\ (exists before,
         Server.generate
           (Samples.world_of Samples.one_capture Samples.timed_out
                             (Ok Samples.page))
           (str "example.com") None (str "login") 100
         = before ++ [Server.Complete (str "Scan finished. No matches found.")]
         /\ existsb Stream.is_match before = false).
Proof.
  split.
  - destruct (@complete_message
                (Samples.serving (Samples.text_page "Please login here"))
                (str "example.com") None (str "login") 100
                ltac:(discriminate)) as (before & Hgen & _).
    exists before.
    assert (Hm : existsb Stream.is_match before = true).
    { apply (f_equal (existsb Stream.is_match)) in Hgen.
      rewrite existsb_app in Hgen. cbn [existsb Stream.is_match] in Hgen.
      rewrite !orb_false_r in Hgen. rewrite <- Hgen. reflexivity. }
    rewrite Hm in Hgen. split; [exact Hgen | exact Hm].
  - destruct (@complete_message
                (Samples.world_of Samples.one_capture Samples.timed_out
                                  (Ok Samples.page))
                (str "example.com") None (str "login") 100
                ltac:(discriminate)) as (before & Hgen & _).
    exists before.
    assert (Hm : existsb Stream.is_match before = false).
    { apply (f_equal (existsb Stream.is_match)) in Hgen.
      rewrite existsb_app in Hgen. cbn [existsb Stream.is_match] in Hgen.
      rewrite !orb_false_r in Hgen. rewrite <- Hgen. reflexivity. }
    rewrite Hm in Hgen. split; [exact Hgen | exact Hm].
Defined.

(** C2: a capture whose fetch fails (the request raises, the status is
    not 200, or processing the page raises) makes its turn of the loop
    yield its progress event and nothing else, and leaves [found_any]
    as it was; in the stream its progress event is followed at once by
    the events of the next captures, and the stream ends with a
    [complete] event; when every capture fails the message is
    [Scan finished. No matches found.]. *)
Theorem failed_capture_is_skipped (w : Server.world) (domain : text)
  (year : option text) (keyword : text) (limit : Z) :
  let snapshots := Server.fetch_snapshots w domain year limit in
  let total := length snapshots in
  (forall item found_any,
      Stream.capture_failed w keyword item = true ->
      Server.scan_snapshot w keyword total item found_any
      = (found_any, [Stream.capture_progress w total item], Ok tt))
  /\ (forall before item after,
         Server.enumerate snapshots = before ++ item :: after ->
         Stream.capture_failed w keyword item = true ->
         exists message,
           Server.generate w domain year keyword limit
           = Stream.contacting domain :: Stream.analyzing total keyword
             :: flat_map (Stream.capture_events w keyword total) before
             ++ [Stream.capture_progress w total item]
             ++ flat_map (Stream.capture_events w keyword total) after
             ++ [Server.Complete message])
  /\ (snapshots <> [] ->
      forallb (Stream.capture_failed w keyword) (Server.enumerate snapshots)
      = true ->
      Server.generate w domain year keyword limit
      = Stream.contacting domain :: Stream.analyzing total keyword
        :: map (Stream.capture_progress w total) (Server.enumerate snapshots)
        ++ [Server.Complete (str "Scan finished. No matches found.")]).
Proof.
  intros snapshots total. split; [|split].
  - intros item found_any Hfail. rewrite scan_snapshot_events.
    unfold Stream.has_matches, Stream.capture_events.
    rewrite (failed_capture_no_matches _ _ _ Hfail).
    now rewrite orb_false_r.
  - intros before item after Hsplit Hfail. rewrite generate_events.
    fold snapshots. fold total.
    destruct snapshots as [|snap snaps] eqn:Hs.
    { destruct before; discriminate Hsplit. }
    cbv zeta. fold total. rewrite Hsplit. eexists. rewrite flat_map_app. cbn [flat_map].
    unfold Stream.capture_events at 2.
    rewrite (failed_capture_no_matches _ _ _ Hfail). cbn [map].
    rewrite <- !app_assoc. reflexivity.
  - intros Hne Hall. rewrite generate_events. fold snapshots. fold total.
    destruct snapshots as [|snap snaps] eqn:Hs; [congruence|].
    cbv zeta. fold total.
    set (items := Server.enumerate (snap :: snaps)) in *.
    assert (Hev : flat_map (Stream.capture_events w keyword total) items
                  = map (Stream.capture_progress w total) items
                  /\ existsb (Stream.has_matches w keyword) items = false).
    { clearbody items. induction items as [|item items IH];
        [split; reflexivity|].
      cbn [forallb] in Hall. apply andb_true_iff in Hall.
      destruct Hall as [Hfail Hall]. destruct (IH Hall) as [IH1 IH2].
      cbn [flat_map map existsb]. rewrite IH1, IH2.
      unfold Stream.capture_events, Stream.has_matches.
      rewrite (failed_capture_no_matches _ _ _ Hfail). split; reflexivity. }
    destruct Hev as [-> ->]. reflexivity.
Qed.

(** Two captures, every fetch timing out (scenario C). *)
Lemma failed_capture_is_skipped_witness :
  Server.generate
    (Samples.world_of Samples.two_captures Samples.timed_out (Ok Samples.page))
    (str "example.com") None (str "login") 100
  = [ Stream.contacting (str "example.com");
      Stream.analyzing 2 (str "login");
      Server.Progress (str "Scanning snapshot: 20200101000000...")
                      (Some (1, 2));
      Server.Progress (str "Scanning snapshot: 20210101000000...")
                      (Some (2, 2));
      Server.Complete (str "Scan finished. No matches found.") ].
Proof.
  exact (proj2 (proj2
           (@failed_capture_is_skipped
              (Samples.world_of Samples.two_captures Samples.timed_out
                                (Ok Samples.page))
              (str "example.com") None (str "login") 100))
           ltac:(discriminate) eq_refl).
Defined.

(** ** The order of the stream *)

Lemma nth_error_enumerate_from {X} (l : list X) :
  forall k i x,
    nth_error l i = Some x ->
    nth_error (combine (seq k (length l)) l) i = Some (k + i, x).
Proof.
  induction l as [|y l IH]; intros k [|i] x; cbn; try discriminate.
  - intros H. injection H as ->. now rewrite Nat.add_0_r.
  - intros H. rewrite (IH (S k) i x H). f_equal. f_equal. lia.
Qed.

Lemma extract_data_tagged (w : Server.world) (html keyword : text)
  (ts : Json.value) (url : text) (ms : list Server.Match) :
  Server.extract_data w html keyword ts url = Ok ms ->
  Forall (fun m => Server.timestamp m = ts /\ Server.archiveUrl m = url) ms.
Proof.
  unfold Server.extract_data.
  destruct (Server.BeautifulSoup w html) as [doc|e]; [|discriminate].
  cbn [Exn.bind]. rewrite extract_zones. intros H. injection H as <-.
  rewrite !Forall_app. repeat split;
    (eapply Forall_impl; [|apply scan_zone_tagged]; cbn; tauto).
Qed.

Lemma capture_matches_tagged (w : Server.world) (keyword : text) (i : nat)
  (snap : Server.snapshot) :
  Forall (fun m => Server.timestamp m = Server.snap_timestamp snap
                   /\ Server.archiveUrl m = Server.archive_url_of w snap)
         (Stream.capture_matches w keyword (i, snap)).
Proof.
  unfold Stream.capture_matches.
  destruct (Server.archive_get w i (Server.archive_url_of w snap))
    as [e | status_code html]; [constructor|].
  destruct (status_code =? 200)%Z; [|constructor].
  destruct (Server.extract_data w html keyword (Server.snap_timestamp snap)
                                (Server.archive_url_of w snap)) eqn:Hx;
    [|constructor].
  eapply extract_data_tagged, Hx.
Qed.

(** C1: the stream of a scan is a header of progress events, then one
    block per capture in discovery order, then one terminal event which
    is the last of the stream; nothing before it is terminal.  The block
    of capture [i] is its progress event, numbered [i + 1], followed by
    its match events, which carry the timestamp and archive URL of that
    capture: the matches of a capture precede the progress event of the
    next. *)
Theorem stream_order (w : Server.world) (domain : text) (year : option text)
  (keyword : text) (limit : Z) :
  let snapshots := Server.fetch_snapshots w domain year limit in
  exists header blocks final,
    Server.generate w domain year keyword limit
    = header ++ concat blocks ++ [final]
    /\ Stream.is_terminal final = true
    /\ Forall (fun e => Stream.is_terminal e = false) (header ++ concat blocks)
    /\ Forall (fun e => Stream.is_progress e = true) header
    /\ length blocks = length snapshots
    /\ forall i snap,
        nth_error snapshots i = Some snap ->
        exists matches,
          nth_error blocks i
          = Some (Server.Progress
                    (str "Scanning snapshot: "
                         ++ Server.format w (Server.snap_timestamp snap)
                         ++ str "...")
                    (Some (i + 1, length snapshots))
                  :: map Server.MatchEvent matches)
          /\ Forall (fun m =>
                       Server.timestamp m = Server.snap_timestamp snap
                       /\ Server.archiveUrl m = Server.archive_url_of w snap)
                    matches.
Proof.
  intros snapshots. rewrite generate_events. fold snapshots.
  destruct snapshots as [|snap0 snaps] eqn:Hs.
  - exists [Stream.contacting domain], [],
           (Server.Complete (str "No snapshots found for this criteria.")).
    split; [reflexivity|]. split; [reflexivity|].
    split; [repeat constructor|]. split; [repeat constructor|].
    split; [reflexivity|]. intros [|i] snap H; discriminate H.
  - cbv zeta. set (all := snap0 :: snaps) in *. set (total := length all).
    exists [Stream.contacting domain; Stream.analyzing total keyword],
           (map (Stream.capture_events w keyword total)
                (Server.enumerate all)).
    eexists. split; [|split; [|split; [|split; [|split]]]].
    + rewrite <- flat_map_concat_map. reflexivity.
    + reflexivity.
    + rewrite <- flat_map_concat_map.
      do 2 (constructor; [reflexivity|]). apply loop_events_not_terminal.
    + repeat constructor.
    + unfold Server.enumerate.
      now rewrite length_map, length_combine, length_seq, Nat.min_id.
    + intros i snap Hi.
      exists (Stream.capture_matches w keyword (i, snap)).
      split; [|apply capture_matches_tagged].
      unfold Server.enumerate.
      rewrite nth_error_map, (nth_error_enumerate_from all 0 i Hi).
      reflexivity.
Qed.

(** Scenario A of the design document: one capture whose page reads
    [Please login here]. *)
Lemma stream_order_witness :
  Server.generate (Samples.serving (Samples.text_page "Please login here"))
                  (str "example.com") None (str "login") 100
  = [ Stream.contacting (str "example.com");
      Stream.analyzing 1 (str "login");
      Server.Progress (str "Scanning snapshot: 20200101000000...")
                      (Some (1, 1));
      Server.MatchEvent
        (Server.found (Json.JStr (str "20200101000000"))
           (str "https://web.archive.org/web/20200101000000/example.com")
           Server.TEXT (str "...Please login here..."));
      Server.Complete (str "Scan complete.") ]
  /\ exists header blocks final,
      Server.generate (Samples.serving (Samples.text_page "Please login here"))
                      (str "example.com") None (str "login") 100
      = header ++ concat blocks ++ [final]
      /\ Stream.is_terminal final = true
      /\ length blocks = 1.
Proof.
  split; [reflexivity|].
  destruct (stream_order (Samples.serving (Samples.text_page "Please login here"))
              (str "example.com") None (str "login") 100)
    as (header & blocks & final & Hgen & Hfinal & _ & _ & Hlen & _).
  exists header, blocks, final. repeat split; assumption.
Defined.

(** * Further properties of [server.py] *)

(** ** [fetch_snapshots] on a list of rows *)

Section DiscoveryRows.
Import Server Json Discovery.

(** The loop over the data rows: all the snapshots, or an exception at
    the first row it cannot read. *)
Lemma rows_loop (rows : list value) :
  forall acc,
    let loop :=
      Exn.for_each rows
        (fun snapshots row =>
           (n <- py_len row ;;
            if 2 <=? n then
              t <- py_item row 0 ;;
              o <- py_item row 1 ;;
              Ok (snapshots ++ [ {| snap_timestamp := t;
                                    snap_original := o |} ])
            else Ok snapshots)%result)
        acc in
    if existsb row_raises rows
    then exists e, loop = Raise e
    else loop = Ok (acc ++ flat_map row_snapshots rows).
Proof.
  induction rows as [|row rows IH]; intros acc; cbn zeta in *.
  - cbn. now rewrite app_nil_r.
  - cbn [existsb Exn.for_each flat_map].
    destruct row as [ | b | lx | s | items | bindings ];
      cbn [row_raises orb py_len Exn.bind];
      try (eexists; reflexivity).
    + (* a string *)
      destruct s as [|c [|d s]]; cbn [length Nat.leb row_snapshots app];
        try (specialize (IH acc); exact IH).
      cbn [py_item nth_error Exn.bind].
      specialize (IH (acc ++ [ {| snap_timestamp := JStr [c];
                                  snap_original := JStr [d] |} ])).
      destruct (existsb row_raises rows); [exact IH|].
      rewrite <- app_assoc in IH. exact IH.
    + (* a list *)
      destruct items as [|t [|o items]];
        cbn [length Nat.leb row_snapshots app];
        try (specialize (IH acc); exact IH).
      cbn [py_item nth_error Exn.bind].
      specialize (IH (acc ++ [ {| snap_timestamp := t;
                                  snap_original := o |} ])).
      destruct (existsb row_raises rows); [exact IH|].
      rewrite <- app_assoc in IH. exact IH.
    + (* an object *)
      destruct bindings as [|b1 [|b2 bindings]];
        cbn [length Nat.leb row_snapshots app orb];
        try (specialize (IH acc); exact IH).
      cbn [py_item Exn.bind]. eexists; reflexivity.
Qed.

End DiscoveryRows.

(** X1: when the index answers 200 with a list whose data rows are all
    lists or strings (or objects with fewer than two bindings),
    [fetch_snapshots] returns, in the order of the rows, one snapshot
    for each row of two items or more, made of its first two items; the
    header row gives none, shorter rows are left out, further columns
    are ignored. *)
Theorem fetch_snapshots_rows (w : Server.world) (domain : text)
  (year : option text) (limit : Z) (header : Json.value)
  (rows : list Json.value) :
  Server.cdx_get w (Server.cdx_params domain year limit)
  = Server.HttpResponse 200 (Ok (Json.JList (header :: rows))) ->
  existsb Discovery.row_raises rows = false ->
  Server.fetch_snapshots w domain year limit
  = flat_map Discovery.row_snapshots rows.
Proof.
  intros Hget Hrows. unfold Server.fetch_snapshots, Server.fetch_snapshots_try.
  rewrite Hget. cbn [Z.eqb Pos.eqb negb Exn.bind].
  destruct rows as [|row rows]; [reflexivity|].
  change (length (header :: row :: rows) <=? 1) with false. cbn [skipn].
  pose proof (rows_loop (row :: rows) []) as Hloop. cbn zeta in Hloop.
  rewrite Hrows in Hloop. rewrite Hloop. reflexivity.
Qed.

Lemma fetch_snapshots_rows_witness :
  Server.fetch_snapshots (MoreSamples.index_answering MoreSamples.mixed_rows)
                         (str "a.com") None 100
  = [ {| Server.snap_timestamp := Json.JStr (str "2020");
         Server.snap_original := Json.JStr (str "a.com") |};
      {| Server.snap_timestamp := Json.JStr (str "2022");
         Server.snap_original := Json.JStr (str "b.com") |} ].
Proof.
  exact (@fetch_snapshots_rows
           (MoreSamples.index_answering MoreSamples.mixed_rows)
           (str "a.com") None 100 MoreSamples.header_row
           MoreSamples.mixed_rows eq_refl eq_refl).
Defined.

(** X2: one data row the loop cannot read (a number, a boolean, null, or
    an object with two bindings or more) empties the whole result: the
    snapshots of the rows before it are lost with it. *)
Theorem fetch_snapshots_all_or_nothing (w : Server.world) (domain : text)
  (year : option text) (limit : Z) (header : Json.value)
  (rows : list Json.value) :
  Server.cdx_get w (Server.cdx_params domain year limit)
  = Server.HttpResponse 200 (Ok (Json.JList (header :: rows))) ->
  existsb Discovery.row_raises rows = true ->
  Server.fetch_snapshots w domain year limit = [].
Proof.
  intros Hget Hrows. unfold Server.fetch_snapshots, Server.fetch_snapshots_try.
  rewrite Hget. cbn [Z.eqb Pos.eqb negb Exn.bind].
  destruct rows as [|row rows]; [reflexivity|].
  change (length (header :: row :: rows) <=? 1) with false. cbn [skipn].
  pose proof (rows_loop (row :: rows) []) as Hloop. cbn zeta in Hloop.
  rewrite Hrows in Hloop. destruct Hloop as [e ->]. reflexivity.
Qed.

Lemma fetch_snapshots_all_or_nothing_witness :
  Server.fetch_snapshots (MoreSamples.index_answering MoreSamples.broken_rows)
                         (str "a.com") None 100
  = [].
Proof.
  exact (@fetch_snapshots_all_or_nothing
           (MoreSamples.index_answering MoreSamples.broken_rows)
           (str "a.com") None 100 MoreSamples.header_row
           MoreSamples.broken_rows eq_refl eq_refl).
Defined.



(** ** [scan]: validation and the limit *)


(** X5: a limit that is not an integer gives the stream of a request
    without a limit, the default 100 standing for both. *)
Theorem scan_invalid_limit (w : Server.world) (domain year keyword : option text)
  (limit : text) :
  Server.int_of_str w (str "100") = Some 100%Z ->
  Server.int_of_str w limit = None ->
  Server.scan w domain year keyword (Some limit)
  = Server.scan w domain year keyword None.
Proof.
  intros Hdefault Hbad. unfold Server.scan. rewrite Hbad, Hdefault.
  reflexivity.
Qed.

Lemma scan_invalid_limit_witness :
  Server.scan MoreSamples.parsing_limits (Some (str "example.com")) None
              (Some (str "login")) (Some (str "abc"))
  = Server.scan MoreSamples.parsing_limits (Some (str "example.com")) None
                (Some (str "login")) None.
Proof.
  exact (@scan_invalid_limit MoreSamples.parsing_limits
           (Some (str "example.com")) None (Some (str "login")) (str "abc")
           eq_refl eq_refl).
Defined.

(** ** [send_sse_event]: the frames can be read back *)

Lemma split_blocks_frame (payload rest acc : text) :
  Zones.no_newline payload = true ->
  Sse.split_blocks acc (payload ++ [newline; newline] ++ rest)
  = (rev acc ++ payload) :: Sse.split_blocks [] rest.
Proof.
  revert acc. induction payload as [|c payload IH]; intros acc Hnn.
  - cbn. now rewrite app_nil_r.
  - unfold Zones.no_newline in Hnn. cbn [forallb] in Hnn.
    apply andb_true_iff in Hnn. destruct Hnn as [Hc Hnn].
    apply negb_true_iff in Hc.
    assert (Hstep : Sse.split_blocks acc
                      ((c :: payload) ++ [newline; newline] ++ rest)
                    = Sse.split_blocks (c :: acc)
                        (payload ++ [newline; newline] ++ rest)).
    { cbn [app Sse.split_blocks]. rewrite Hc. cbn [andb].
      destruct payload; reflexivity. }
    rewrite Hstep, (IH (c :: acc) Hnn). cbn [rev]. now rewrite <- app_assoc.
Qed.

Lemma drop_prefix_app (p s : text) : Sse.drop_prefix p (p ++ s) = Some s.
Proof.
  induction p as [|c p IH]; cbn; [reflexivity|].
  now rewrite Ascii.eqb_refl.
Qed.

(** X6: when the serialisation of every event holds no newline (as JSON
    without indentation does), the concatenated frames of
    [send_sse_event] split back, at the blank lines, into exactly the
    serialised events in order: no frame is merged, cut or lost. *)
Theorem sse_frames_round_trip (dumps : Server.event -> text)
  (events : list Server.event) :
  Forall (fun e => Zones.no_newline (dumps e) = true) events ->
  Sse.payloads (concat (map (Server.send_sse_event dumps) events))
  = map (fun e => Some (dumps e)) events.
Proof.
  unfold Sse.payloads. induction 1 as [|e events He _ IH]; [reflexivity|].
  cbn [map concat]. unfold Server.send_sse_event at 1.
  rewrite <- !app_assoc.
  assert (Hframe : Zones.no_newline (str "data: " ++ dumps e) = true).
  { unfold Zones.no_newline in *. now rewrite forallb_app, He. }
  rewrite app_assoc.
  rewrite (@split_blocks_frame (str "data: " ++ dumps e) _ [] Hframe).
  cbn [map rev app]. rewrite IH.
  f_equal; apply (drop_prefix_app (str "data: ")).
Qed.

Lemma sse_frames_round_trip_witness :
  Sse.payloads
    (concat (map (Server.send_sse_event
                    (fun e => match e with
                              | Server.Complete m => str "complete:" ++ m
                              | _ => str "other"
                              end))
                 [Server.Progress (str "p") None;
                  Server.Complete (str "Scan complete.")]))
  = [Some (str "other"); Some (str "complete:Scan complete.")].
Proof.
  exact (@sse_frames_round_trip
           (fun e => match e with
                     | Server.Complete m => str "complete:" ++ m
                     | _ => str "other"
                     end)
           [Server.Progress (str "p") None;
            Server.Complete (str "Scan complete.")]
           ltac:(repeat constructor)).
Defined.

(** ** The counters and the matches of a stream *)

Lemma counters_of_capture (w : Server.world) (keyword : text) (total : nat)
  (items : list (nat * Server.snapshot)) :
  flat_map Views.event_counters
           (flat_map (Stream.capture_events w keyword total) items)
  = map (fun item => (fst item + 1, total)) items.
Proof.
  induction items as [|item items IH]; [reflexivity|].
  cbn [flat_map map]. rewrite flat_map_app, IH.
  unfold Stream.capture_events. cbn [flat_map Views.event_counters
                                       Stream.capture_progress app].
  replace (flat_map Views.event_counters
             (map Server.MatchEvent (Stream.capture_matches w keyword item)))
    with (@nil (nat * nat)); [reflexivity|].
  induction (Stream.capture_matches w keyword item); cbn; auto.
Qed.

Lemma enumerate_indices {X Y} (f : nat -> Y) (l : list X) :
  forall k,
    map (fun item => f (fst item)) (combine (seq k (length l)) l)
    = map f (seq k (length l)).
Proof.
  induction l as [|x l IH]; intros k; cbn; [reflexivity|]. now rewrite IH.
Qed.

(** X7: in the stream of a scan over [n > 0] captures the counters
    [currentSnapshot, totalSnapshots] read, in order, [0, n], [1, n], ...
    [n, n]: one progress event per capture, fetched or not, and a total
    that never changes. *)
Theorem progress_counters (w : Server.world) (domain : text)
  (year : option text) (keyword : text) (limit : Z) :
  let n := length (Server.fetch_snapshots w domain year limit) in
  n <> 0 ->
  flat_map Views.event_counters (Server.generate w domain year keyword limit)
  = map (fun i => (i, n)) (seq 0 (S n)).
Proof.
  intros n Hn. rewrite generate_events. subst n. revert Hn.
  destruct (Server.fetch_snapshots w domain year limit) as [|snap snaps];
    intros Hn; [now contradiction Hn|].
  cbv zeta. set (all := snap :: snaps). set (n := length all).
  cbn [flat_map Stream.contacting Stream.analyzing Views.event_counters app].
  rewrite flat_map_app, counters_of_capture. cbn [flat_map app].
  rewrite app_nil_r. cbn [seq map]. f_equal.
  unfold Server.enumerate.
  rewrite (enumerate_indices (fun i => (i + 1, n)) all 0). fold n.
  rewrite <- seq_shift, map_map. apply map_ext. intros i. f_equal. lia.
Qed.

Lemma progress_counters_witness :
  flat_map Views.event_counters
    (Server.generate
       (Samples.world_of Samples.two_captures Samples.timed_out
                         (Ok Samples.page))
       (str "example.com") None (str "login") 100)
  = [(0, 2); (1, 2); (2, 2)].
Proof.
  exact (@progress_counters
           (Samples.world_of Samples.two_captures Samples.timed_out
                             (Ok Samples.page))
           (str "example.com") None (str "login") 100 ltac:(discriminate)).
Defined.

Lemma matches_of_capture (w : Server.world) (keyword : text) (total : nat)
  (items : list (nat * Server.snapshot)) :
  flat_map Views.event_match
           (flat_map (Stream.capture_events w keyword total) items)
  = flat_map (Stream.capture_matches w keyword) items.
Proof.
  induction items as [|item items IH]; [reflexivity|].
  cbn [flat_map]. rewrite flat_map_app, IH. f_equal.
  unfold Stream.capture_events. cbn [flat_map Views.event_match
                                       Stream.capture_progress app].
  induction (Stream.capture_matches w keyword item) as [|m ms IHm];
    cbn; [reflexivity | now f_equal].
Qed.

(** X8: the matches a stream carries are the results of [extract_data]
    on the captures that were fetched with status 200 and scanned
    without an exception, capture after capture in discovery order:
    none is dropped, repeated or reordered. *)
Theorem stream_matches (w : Server.world) (domain : text)
  (year : option text) (keyword : text) (limit : Z) :
  flat_map Views.event_match (Server.generate w domain year keyword limit)
  = flat_map (Stream.capture_matches w keyword)
             (Server.enumerate (Server.fetch_snapshots w domain year limit)).
Proof.
  rewrite generate_events.
  destruct (Server.fetch_snapshots w domain year limit) as [|snap snaps];
    [reflexivity|].
  cbv zeta.
  cbn [flat_map Stream.contacting Stream.analyzing Views.event_match app].
  rewrite flat_map_app, matches_of_capture. cbn [flat_map app].
  now rewrite app_nil_r.
Qed.

(** ** The only failure of [extract_data] *)

(** X9: [extract_data] raises exactly when the HTML parser does, with
    the parser's exception; on every parsed document it returns a
    list. *)
Theorem extract_data_raises_with_parser (w : Server.world)
  (html keyword : text) (ts : Json.value) (url : text) (e : exn) :
  Server.extract_data w html keyword ts url = Raise e
  <-> Server.BeautifulSoup w html = Raise e.
Proof.
  unfold Server.extract_data.
  destruct (Server.BeautifulSoup w html) as [doc|e']; cbn [Exn.bind].
  - rewrite extract_zones. split; discriminate.
  - split; intros H; injection H as ->; reflexivity.
Qed.

(** ** Bounds on snippets and on the number of matches *)

Lemma length_lstrip (s : text) : length (lstrip s) <= length s.
Proof.
  induction s as [|c s IH]; cbn; [lia|]. destruct (isspace c); cbn; lia.
Qed.

Lemma length_strip (s : text) : length (strip s) <= length s.
Proof.
  unfold strip, rstrip. rewrite length_rev.
  etransitivity; [apply length_lstrip|]. rewrite length_rev.
  apply length_lstrip.
Qed.

Lemma length_normalise (ty : Server.match_type) (s : text) :
  length (Zones.normalise ty s) <= length s.
Proof.
  destruct ty; cbn [Zones.normalise].
  - unfold replace_newline. now rewrite length_map.
  - etransitivity; [apply length_strip|].
    unfold replace_newline. now rewrite length_map.
  - apply length_strip.
Qed.

Lemma extract_data_parsed (w : Server.world) (html keyword : text)
  (ts : Json.value) (url : text) (ms : list Server.Match) :
  Server.extract_data w html keyword ts url = Ok ms ->
  exists doc, Server.BeautifulSoup w html = Ok doc
              /\ Server.extract_from_soup keyword ts url doc = Ok ms.
Proof.
  unfold Server.extract_data.
  destruct (Server.BeautifulSoup w html) as [doc|e]; [|discriminate].
  cbn [Exn.bind]. intros H. now exists doc.
Qed.

(** X10: every snippet [extract_data] returns is at least 6 characters
    long (the two ellipses) and at most the length of the keyword plus
    66: the keyword, 30 characters of context on each side, and the
    ellipses. *)
Theorem snippet_bounded (w : Server.world) (html keyword : text)
  (ts : Json.value) (url : text) (ms : list Server.Match)
  (m : Server.Match) :
  Server.extract_data w html keyword ts url = Ok ms ->
  In m ms ->
  6 <= length (Server.snippet m) <= length keyword + 66.
Proof.
  intros Hms Hin.
  destruct (extract_data_parsed _ _ _ _ _ Hms) as (doc & _ & Hx).
  destruct (@match_origin _ _ _ _ _ _ Hx Hin) as (h & [s e] & _ & Hocc & ->).
  destruct (@occurrence_sound _ _ _ _ Hocc) as (i & -> & -> & Hl & _ & _).
  destruct (@window_split h i (length keyword) Hl)
    as (pre & post & Hw & Hpre & Hpost).
  unfold Zones.snippet_of. rewrite !length_app. cbn [str length
    list_ascii_of_string].
  pose proof (length_normalise (Server.matchType m)
                (Server.window h (Z.of_nat i,
                                  (Z.of_nat i + len keyword)%Z))) as Hn.
  unfold len in *. rewrite Hw in *.
  rewrite !length_app, length_firstn in Hn. lia.
Qed.

Lemma snippet_bounded_witness :
  6 <= length (str "...Please login here...") <= length (str "login") + 66.
Proof.
  exact (@snippet_bounded
           (Samples.serving (Samples.text_page "Please login here"))
           (str "<html>") (str "login") Json.JNull (str "u")
           [Server.found Json.JNull (str "u") Server.TEXT
                         (str "...Please login here...")]
           (Server.found Json.JNull (str "u") Server.TEXT
                         (str "...Please login here..."))
           eq_refl (or_introl eq_refl)).
Defined.

Lemma finditer_from_count (p : Re.pattern) (s : text) :
  forall pos skip,
    skip <= length s ->
    length (Re.finditer_from p pos skip s) * length p + skip <= length s.
Proof.
  destruct p as [|a p].
  { intros pos skip H. cbn [length]. lia. }
  induction s as [|c s IH]; intros pos skip Hskip; cbn [Re.finditer_from].
  - cbn in Hskip. destruct skip; [cbn; lia | lia].
  - destruct skip as [|k].
    + destruct (Re.match_here (a :: p) (c :: s)) eqn:Hm.
      * apply match_here_length in Hm. cbn [length pred] in *.
        specialize (IH (pos + 1)%Z (length p) ltac:(lia)). lia.
      * specialize (IH (pos + 1)%Z 0 ltac:(lia)). cbn [length] in *. lia.
    + cbn [length] in *. specialize (IH (pos + 1)%Z k ltac:(lia)). lia.
Qed.

(** X11: the matches of a document cannot outnumber the places its
    haystacks have room for: their number times the length of the
    keyword is at most the total length of the haystacks. *)
Theorem matches_bounded (w : Server.world) (html keyword : text)
  (ts : Json.value) (url : text) (doc : Bs4.soup) (ms : list Server.Match) :
  Server.BeautifulSoup w html = Ok doc ->
  Server.extract_data w html keyword ts url = Ok ms ->
  length ms * length keyword
  <= list_sum (map (fun zh => length (snd zh)) (Zones.haystacks doc)).
Proof.
  intros Hdoc Hms. unfold Server.extract_data in Hms. rewrite Hdoc in Hms.
  cbn [Exn.bind] in Hms. rewrite extract_haystacks in Hms.
  injection Hms as <-. rewrite length_flat_map.
  induction (Zones.haystacks doc) as [|[ty h] hs IH];
    cbn [map list_sum fold_right fst snd] in *; [lia|].
  unfold Zones.zone_matches at 1, Zones.occurrences, Re.finditer.
  rewrite length_map.
  pose proof (@finditer_from_count (map Re.Lit keyword) h 0%Z 0 ltac:(lia))
    as Hc.
  rewrite length_map in Hc. unfold list_sum in *.
  rewrite Nat.mul_add_distr_r. lia.
Qed.

Lemma matches_bounded_witness :
  length (Zones.zone_matches (str "aa") Json.JNull (str "u") Server.TEXT
                             (str "aaaaa"))
  * length (str "aa")
  <= list_sum (map (fun zh => length (snd zh))
                   (Zones.haystacks (Samples.text_page "aaaaa"))).
Proof.
  exact (@matches_bounded (Samples.serving (Samples.text_page "aaaaa"))
           (str "<html>") (str "aa") Json.JNull (str "u")
           (Samples.text_page "aaaaa") _ eq_refl eq_refl).
Defined.

(** ** The case of the keyword *)

Lemma match_here_same_case (k k' : text) :
  Zones.same_ignoring_case k k' ->
  forall s, Re.match_here (map Re.Lit k) s = Re.match_here (map Re.Lit k') s.
Proof.
  unfold Zones.same_ignoring_case. revert k'.
  induction k as [|c k IH]; intros [|c' k'] H s; try discriminate H;
    [reflexivity|].
  cbn [map] in H. injection H as Hc Hk.
  destruct s as [|d s]; cbn; [reflexivity|].
  now rewrite Hc, (IH k' Hk).
Qed.

Lemma finditer_from_same (p p' : Re.pattern) :
  length p = length p' ->
  (forall s, Re.match_here p s = Re.match_here p' s) ->
  forall s pos skip,
    Re.finditer_from p pos skip s = Re.finditer_from p' pos skip s.
Proof.
  intros Hlen Hm. induction s as [|c s IH]; intros pos skip;
    cbn [Re.finditer_from].
  - now rewrite Hm.
  - destruct skip; [|apply IH]. now rewrite Hm, Hlen, !IH.
Qed.

(** X12: the result of [extract_data] does not depend on the letter case
    of the keyword: two keywords equal up to case give the same matches,
    snippets included. *)
Theorem keyword_case_irrelevant (w : Server.world) (html keyword keyword' : text)
  (ts : Json.value) (url : text) :
  Zones.same_ignoring_case keyword keyword' ->
  Server.extract_data w html keyword ts url
  = Server.extract_data w html keyword' ts url.
Proof.
  intros Hsame. unfold Server.extract_data.
  destruct (Server.BeautifulSoup w html) as [doc|e]; [|reflexivity].
  cbn [Exn.bind]. rewrite !extract_haystacks. f_equal.
  apply flat_map_ext. intros [ty h]. cbn [fst snd].
  unfold Zones.zone_matches, Zones.occurrences, Re.finditer.
  rewrite (@finditer_from_same (map Re.Lit keyword) (map Re.Lit keyword')).
  - reflexivity.
  - rewrite !length_map.
    apply (f_equal (@length ascii)) in Hsame. now rewrite !length_map in Hsame.
  - now apply match_here_same_case.
Qed.

Lemma keyword_case_irrelevant_witness :
  Server.extract_data (Samples.serving Samples.page) (str "<html>")
                      (str "LogIn") Json.JNull (str "u")
  = Server.extract_data (Samples.serving Samples.page) (str "<html>")
                        (str "login") Json.JNull (str "u").
Proof.
  exact (@keyword_case_irrelevant (Samples.serving Samples.page)
           (str "<html>") (str "LogIn") (str "login") Json.JNull (str "u")
           eq_refl).
Defined.

(** ** Newlines in snippets *)

Lemma no_newline_replace (s : text) :
  Zones.no_newline (replace_newline s) = true.
Proof.
  unfold Zones.no_newline, replace_newline. apply forallb_forall.
  intros x Hin. apply in_map_iff in Hin. destruct Hin as (c & <- & _).
  destruct (Ascii.eqb_spec c newline) as [->|Hc]; [reflexivity|].
  apply negb_true_iff. now apply Ascii.eqb_neq.
Qed.

Lemma forallb_lstrip (f : ascii -> bool) (s : text) :
  forallb f s = true -> forallb f (lstrip s) = true.
Proof.
  induction s as [|c s IH]; cbn; [trivial|].
  intros H. apply andb_true_iff in H. destruct H as [Hc Hs].
  destruct (isspace c); [now apply IH|]. cbn. now rewrite Hc, Hs.
Qed.

Lemma forallb_rev (f : ascii -> bool) (s : text) :
  forallb f s = true -> forallb f (rev s) = true.
Proof.
  rewrite !forallb_forall. intros H c Hin. apply H. now apply in_rev.
Qed.

Lemma forallb_strip (f : ascii -> bool) (s : text) :
  forallb f s = true -> forallb f (strip s) = true.
Proof.
  intros H. unfold strip, rstrip.
  now apply forallb_rev, forallb_lstrip, forallb_rev, forallb_lstrip.
Qed.

(** X13: the snippet of a TEXT or JS match is one line: it holds no
    newline character, whatever the page held around the match. *)
Theorem snippet_single_line (w : Server.world) (html keyword : text)
  (ts : Json.value) (url : text) (ms : list Server.Match)
  (m : Server.Match) :
  Server.extract_data w html keyword ts url = Ok ms ->
  In m ms ->
  Server.matchType m <> Server.COMMENT ->
  Zones.no_newline (Server.snippet m) = true.
Proof.
  intros Hms Hin Hty.
  destruct (extract_data_parsed _ _ _ _ _ Hms) as (doc & _ & Hx).
  destruct (@match_origin _ _ _ _ _ _ Hx Hin) as (h & occ & _ & _ & ->).
  unfold Zones.snippet_of, Zones.no_newline. rewrite !forallb_app.
  change (forallb (fun c => negb (Ascii.eqb c newline)) (str "...")) with true.
  rewrite andb_true_r. cbn [andb].
  destruct (Server.matchType m); cbn [Zones.normalise].
  - apply no_newline_replace.
  - apply forallb_strip, no_newline_replace.
  - congruence.
Qed.

Lemma snippet_single_line_witness :
  Zones.no_newline (str "...var  login = 1;...") = true.
Proof.
  exact (@snippet_single_line (Samples.serving Samples.page) (str "<html>")
           (str "login") Json.JNull (str "u") _
           (Server.found Json.JNull (str "u") Server.JS
                         (str "...var  login = 1;..."))
           eq_refl (or_intror (or_introl eq_refl)) ltac:(discriminate)).
Defined.

(** ** What never yields a match *)

(** X14: the comments that hold the marker [FILE ARCHIVED ON] never
    yield a match: on a document all of whose comments hold it, no
    COMMENT match is returned, whatever the keyword, the marker itself
    included. *)
Theorem archive_footer_ignored (keyword : text) (ts : Json.value) (url : text)
  (doc : Bs4.soup) (ms : list Server.Match) :
  Forall (fun c => contains (str "FILE ARCHIVED ON") c = true)
         (Bs4.find_all_comments (Zones.cleaned doc)) ->
  Server.extract_from_soup keyword ts url doc = Ok ms ->
  Forall (fun m => Server.matchType m <> Server.COMMENT) ms.
Proof.
  intros Hall. rewrite extract_zones. intros H. injection H as <-.
  assert (Hnone : Zones.comment_haystacks (Zones.cleaned doc) = []).
  { unfold Zones.comment_haystacks.
    induction Hall as [|c cs Hc _ IH]; [reflexivity|].
    cbn [filter]. now rewrite Hc. }
  rewrite Hnone. cbn [Zones.scan_zone flat_map]. rewrite app_nil_r.
  rewrite Forall_app. split;
    (eapply Forall_impl; [|apply scan_zone_tagged]); cbn;
    intros m (Hty & _); rewrite Hty; discriminate.
Qed.

Lemma archive_footer_ignored_witness :
  Forall (fun m => Server.matchType m <> Server.COMMENT)
         [Server.found Json.JNull (str "u") Server.JS
                       (str "...var archived = 1;...")].
Proof.
  exact (@archive_footer_ignored (str "archived") Json.JNull (str "u")
           MoreSamples.footer_page _
           ltac:(repeat constructor) eq_refl).
Defined.

(** X15: a body that holds no plain text (only elements, scripts, styles
    and comments) yields no TEXT match for a non-empty keyword: what is
    written in a script or a comment is never found as visible text. *)
Theorem hidden_text_not_visible (keyword : text) (ts : Json.value) (url : text)
  (doc : Bs4.soup) (body : Bs4.node) (ms : list Server.Match) :
  keyword <> [] ->
  Bs4.find (str "body") (Zones.cleaned doc) = Some body ->
  forallb Views.hidden (Bs4.descendants body) = true ->
  Server.extract_from_soup keyword ts url doc = Ok ms ->
  Forall (fun m => Server.matchType m <> Server.TEXT) ms.
Proof.
  intros Hne Hbody Hhidden. rewrite extract_zones. intros H. injection H as <-.
  assert (Htext : Zones.text_haystacks (Zones.cleaned doc) = [[]]).
  { unfold Zones.text_haystacks. rewrite Hbody. f_equal.
    unfold Bs4.get_text_strip.
    induction (Bs4.descendants body) as [|d ds IH]; [reflexivity|].
    cbn [forallb] in Hhidden. apply andb_true_iff in Hhidden.
    destruct Hhidden as [Hd Hds]. cbn [flat_map].
    destruct d as [name attrs kids | c s]; cbn [app]; [now apply IH|].
    cbn [Views.hidden] in Hd. apply negb_true_iff in Hd. rewrite Hd.
    now apply IH. }
  rewrite Htext. cbn [Zones.scan_zone flat_map app].
  unfold Zones.zone_matches at 1.
  rewrite (occurrences_empty_haystack Hne). cbn [map app].
  rewrite Forall_app. split;
    (eapply Forall_impl; [|apply scan_zone_tagged]); cbn;
    intros m (Hty & _); rewrite Hty; discriminate.
Qed.

Lemma hidden_text_not_visible_witness :
  Forall (fun m => Server.matchType m <> Server.TEXT)
         [Server.found Json.JNull (str "u") Server.JS
                       (str "...var archived = 1;...")].
Proof.
  exact (@hidden_text_not_visible (str "archived") Json.JNull (str "u")
           MoreSamples.footer_page
           (Samples.element "body"
              [ Samples.script_node None [ "var archived = 1;"%string ];
                Bs4.Str Bs4.Comment (str " FILE ARCHIVED ON 2020 ") ])
           _ ltac:(discriminate) eq_refl eq_refl eq_refl).
Defined.

(** ** The cleanup *)

(** Induction on a document tree: a property of every string node that
    passes from the children of an element to the element holds of every
    node. *)
Lemma node_induction (P : Bs4.node -> Prop) :
  (forall c s, P (Bs4.Str c s)) ->
  (forall name attrs kids, Forall P kids -> P (Bs4.Tag name attrs kids)) ->
  forall n, P n.
Proof.
  intros Hstr Htag. fix IH 1. intros [name attrs kids | c s].
  - apply Htag. induction kids as [|k kids IHkids]; constructor.
    + apply IH.
    + exact IHkids.
  - apply Hstr.
Qed.

Lemma flat_map_flat_map {A B C} (f : B -> list C) (g : A -> list B)
  (l : list A) :
  flat_map f (flat_map g l) = flat_map (fun x => flat_map f (g x)) l.
Proof.
  induction l as [|x l IH]; cbn; [reflexivity|].
  now rewrite flat_map_app, IH.
Qed.

Lemma flat_map_Forall_ext {A B} (f g : A -> list B) (l : list A) :
  Forall (fun x => f x = g x) l -> flat_map f l = flat_map g l.
Proof.
  induction 1 as [|x l Hx _ IH]; cbn; [reflexivity|]. now rewrite Hx, IH.
Qed.

(** Removing the elements of [q], then those of [p], removes the
    elements of either. *)
Lemma prune_prune (p q : text -> list (text * text) -> bool) (n : Bs4.node) :
  flat_map (Bs4.prune p) (Bs4.prune q n)
  = Bs4.prune (fun name attrs => q name attrs || p name attrs) n.
Proof.
  induction n as [c s | name attrs kids IH] using node_induction;
    [reflexivity|].
  cbn [Bs4.prune]. destruct (q name attrs); cbn [orb flat_map];
    [reflexivity|].
  cbn [Bs4.prune]. destruct (p name attrs); cbn [app]; [reflexivity|].
  rewrite ?app_nil_r. do 2 f_equal.
  rewrite flat_map_flat_map. now apply flat_map_Forall_ext.
Qed.

Lemma prune_ext (p q : text -> list (text * text) -> bool) (n : Bs4.node) :
  (forall name attrs, p name attrs = q name attrs) ->
  Bs4.prune p n = Bs4.prune q n.
Proof.
  intros Hpq.
  induction n as [c s | name attrs kids IH] using node_induction;
    [reflexivity|].
  cbn [Bs4.prune]. rewrite Hpq. destruct (q name attrs); [reflexivity|].
  do 2 f_equal. now apply flat_map_Forall_ext.
Qed.

Lemma cleaned_prune (doc : Bs4.soup) :
  Zones.cleaned doc
  = flat_map (Bs4.prune (fun name attrs =>
                           Server.is_wayback_toolbar name attrs
                           || Server.is_archive_script name attrs)) doc.
Proof.
  unfold Zones.cleaned, Bs4.decompose_all. rewrite flat_map_flat_map.
  apply flat_map_ext. intros n. apply prune_prune.
Qed.

(** X16: the cleanup is idempotent, and [extract_data] gives the same
    result on a document and on the document already cleaned: removing
    the toolbar and the scripts of the archive beforehand changes
    nothing. *)
Theorem cleanup_idempotent (keyword : text) (ts : Json.value) (url : text)
  (doc : Bs4.soup) :
  Zones.cleaned (Zones.cleaned doc) = Zones.cleaned doc
  /\ Server.extract_from_soup keyword ts url (Zones.cleaned doc)
     = Server.extract_from_soup keyword ts url doc.
Proof.
  assert (Hidem : Zones.cleaned (Zones.cleaned doc) = Zones.cleaned doc).
  { rewrite (cleaned_prune (Zones.cleaned doc)), (cleaned_prune doc).
    rewrite flat_map_flat_map. apply flat_map_ext. intros n.
    rewrite prune_prune. apply prune_ext. intros name attrs.
    now rewrite orb_diag. }
  split; [exact Hidem|]. rewrite !extract_zones, Hidem. reflexivity.
Qed.

(** Nothing among the nodes [prune] keeps is an element it removes. *)
Lemma prune_clean (p : text -> list (text * text) -> bool) (n : Bs4.node) :
  Forall (fun d => match d with
                   | Bs4.Tag name attrs _ => p name attrs = false
                   | Bs4.Str _ _ => True
                   end)
         (Bs4.soup_descendants (Bs4.prune p n)).
Proof.
  unfold Bs4.soup_descendants.
  induction n as [c s | name attrs kids IH] using node_induction.
  - cbn. repeat constructor.
  - cbn [Bs4.prune]. destruct (p name attrs) eqn:Hp; [constructor|].
    cbn [flat_map Bs4.descendants]. rewrite app_nil_r.
    constructor; [exact Hp|].
    rewrite flat_map_flat_map. apply Forall_flat_map.
    exact IH.
Qed.

(** X17: in the document the three searches run on, no element is left
    that the cleanup removes: none whose id is [wm-ipp-base], [wm-ipp]
    or [donato], and no script whose source holds [archive.org], at any
    depth. *)
Theorem cleaned_has_nothing_injected (doc : Bs4.soup) :
  forallb (fun d => negb (Views.injected d))
          (Bs4.soup_descendants (Zones.cleaned doc))
  = true.
Proof.
  rewrite cleaned_prune. apply forallb_forall. intros d Hd.
  unfold Bs4.soup_descendants in Hd.
  rewrite flat_map_flat_map in Hd. apply in_flat_map in Hd.
  destruct Hd as (n & _ & Hd).
  pose proof (prune_clean
                (fun name attrs => Server.is_wayback_toolbar name attrs
                                   || Server.is_archive_script name attrs) n)
    as Hclean.
  rewrite Forall_forall in Hclean. specialize (Hclean d Hd).
  destruct d as [name attrs kids | c s]; cbn [Views.injected];
    [now rewrite Hclean | reflexivity].
Qed.

(** ** Failures and the end of the stream *)

(** X18: whatever the index, the capture requests and the parser answer
    or raise, the stream holds no [error] event and its last event is a
    [complete] event: these failures are all absorbed before the outer
    handler of [generate]. *)
Theorem failures_never_surface (w : Server.world) (domain : text)
  (year : option text) (keyword : text) (limit : Z) :
  Forall (fun e => match e with Server.Error _ => False | _ => True end)
         (Server.generate w domain year keyword limit)
  /\ exists message,
      last (Server.generate w domain year keyword limit)
           (Server.Error [])
      = Server.Complete message.
Proof.
  rewrite generate_events.
  destruct (Server.fetch_snapshots w domain year limit) as [|snap snaps].
  - split; [repeat constructor | eexists; reflexivity].
  - cbv zeta. split.
    + do 2 (constructor; [exact I|]). rewrite Forall_app. split.
      * eapply Forall_impl; [|apply loop_events_not_terminal].
        intros [ | | | ]; cbn; intros H; try exact I. discriminate H.
      * repeat constructor.
    + eexists. rewrite !app_comm_cons. apply last_last.
Qed.
